(** * EDI gateway: the ingress and egress handlers of [main.go]

    A shallow embedding of [inboundHandler], [outboundHandler] and the
    route table of [main], over an explicit state made of what the
    handlers talk to: the rows of the [transactions] table behind [db],
    the Kafka writer, the two Prometheus counters and the process log.

    - What the runtime answers during one request (the random bytes
      [uuid.New] reads, the clock, the outcome of the storage and stream
      calls) is an input of the handler, [Env].
    - Library functions whose result is passed on unread are the fields
      of the class [Library].
    - Requests are handled one after another ([run]); a counter is a
      natural number.
    - What the loggers of the libraries print (gorm's default logger,
      the writer's [ErrorLogger]) is kept apart from the lines the
      handlers give to [log.Printf], and the order in which a read
      returns the rows is the store's choice.
    - A request body is the JSON value the decoder's scanner reads from
      it; decoding into the struct follows [encoding/json] of the Go
      release the image builds with (golang:1.20). *)

From Stdlib Require Import List String Ascii ZArith NArith Bool Lia Permutation.
From Stdlib Require Import Numbers.DecimalString.
Import ListNotations.

Local Open Scope string_scope.
Local Open Scope list_scope.
Local Open Scope Z_scope.

(* ================================================================== *)
(** ** Text *)

(** The two characters the sources write as escapes. *)
Definition nl : string := String "010"%char EmptyString.
Definition dquote : string := String "034"%char EmptyString.

(** [contains sub s]: [sub] occurs in [s] as a literal substring. *)
Definition contains (sub s : string) : Prop :=
  exists pre post, s = (pre ++ sub ++ post)%string.

(** Executable counterpart of [contains]. *)
Fixpoint containsb (sub s : string) : bool :=
  String.prefix sub s
  || match s with
     | EmptyString => false
     | String _ s' => containsb sub s'
     end.

(** The body read as newline-terminated lines (what a line scanner
    returns): a last line without terminator counts when it is not
    empty. *)
Fixpoint lines_from (cur : string) (s : string) : list string :=
  match s with
  | EmptyString => if (cur =? "")%string then [] else [cur]
  | String c s' =>
      if Ascii.eqb c "010"%char
      then cur :: lines_from "" s'
      else lines_from (cur ++ String c EmptyString) s'
  end.

Definition lines (s : string) : list string := lines_from "" s.

Fixpoint newline_free (s : string) : bool :=
  match s with
  | EmptyString => true
  | String c s' => negb (Ascii.eqb c "010"%char) && newline_free s'
  end.

(** The elements of a path, between its slashes. *)
Fixpoint elements_from (cur : string) (p : string) : list string :=
  match p with
  | EmptyString => [cur]
  | String c p' =>
      if Ascii.eqb c "/"
      then cur :: elements_from "" p'
      else elements_from (cur ++ String c EmptyString) p'
  end.

Definition elements (p : string) : list string := elements_from "" p.

Definition startsWithSlash (p : string) : bool :=
  match p with
  | String c _ => Ascii.eqb c "/"
  | EmptyString => false
  end.

Fixpoint endsWithSlash (p : string) : bool :=
  match p with
  | EmptyString => false
  | String c EmptyString => Ascii.eqb c "/"
  | String _ p' => endsWithSlash p'
  end.

(** [path.Clean] on a rooted path: empty elements and [.] go, [..] takes
    the element before it with it and goes alone at the root. *)
Definition path_Clean (p : string) : string :=
  let step (kept : list string) (el : string) :=
    if (el =? "")%string || (el =? ".")%string then kept
    else if (el =? "..")%string then removelast kept
    else kept ++ [el] in
  ("/" ++ String.concat "/" (fold_left step (elements p) []))%string.

(** [cleanPath] of gorilla/mux. *)
Definition cleanPath (p : string) : string :=
  if (p =? "")%string then "/"
  else
    let p := if startsWithSlash p then p else ("/" ++ p)%string in
    let np := path_Clean p in
    if endsWithSlash p && negb (np =? "/")%string then (np ++ "/")%string else np.

(** A list with the neighbours at positions [i] and [i+1] exchanged. *)
Fixpoint swap_at {A : Type} (i : nat) (l : list A) {struct l} : list A :=
  match l with
  | [] => []
  | x :: l' =>
      match i with
      | O => match l' with
             | y :: l'' => y :: x :: l''
             | [] => l
             end
      | S i' => x :: swap_at i' l'
      end
  end.

(** A list after a sequence of such exchanges: any order of its
    elements, and nothing but an order of them. *)
Definition reorder {A : Type} (swaps : list nat) (l : list A) : list A :=
  fold_left (fun l i => swap_at i l) swaps l.

Fixpoint zeros (n : nat) : string :=
  match n with
  | O => ""
  | S n' => String "0"%char (zeros n')
  end.

Definition decimal (n : N) : string :=
  NilEmpty.string_of_uint (N.to_uint n).

(* ================================================================== *)
(** ** package time *)

(** A [time.Time], by what its methods read from it: the calendar date and
    clock of the instant in the value's own location, the fraction of the
    second, the zone, and the monotonic reading [time.Now] attaches. *)
Record Time := mkTime {
  year : Z; month : Z; day : Z;
  hour : Z; minute : Z; second : Z;
  nanosecond : Z;
  zoneName : string; zoneOffset : Z;
  monotonic : option Z
}.

(** The zero value [time.Time{}]: January 1, year 1, 00:00:00 UTC. *)
Definition zeroTime : Time := mkTime 1 1 1 0 0 0 0 "UTC" 0 None.

(** [appendInt] of [time/format.go]: sign, zero padding up to [width],
    decimal digits. *)
Definition appendInt (x : Z) (width : nat) : string :=
  let d := decimal (Z.abs_N x) in
  let sign := if (x <? 0)%Z then "-" else "" in
  (sign ++ zeros (width - String.length d)%nat ++ d)%string.

(** The layout the egress handler passes to [Format]. *)
Definition layout : string := "2006-01-02 15:04:05".

(** [t.Format("2006-01-02 15:04:05")]: the layout's chunks are
    stdLongYear, stdZeroMonth, stdZeroDay, stdHour, stdZeroMinute and
    stdZeroSecond, with the separators copied. *)
Definition Format (t : Time) : string :=
  (appendInt (year t) 4 ++ "-" ++ appendInt (month t) 2 ++ "-"
   ++ appendInt (day t) 2 ++ " " ++ appendInt (hour t) 2 ++ ":"
   ++ appendInt (minute t) 2 ++ ":" ++ appendInt (second t) 2)%string.

(* ================================================================== *)
(** ** package uuid *)

(** A UUID is 16 bytes. *)
Definition UUID := list Z.

Definition is_byte (b : Z) : Prop := 0 <= b < 256.

(** Byte [i] of what was read, as an unsigned 8-bit value. *)
Definition byte_at (u : list Z) (i : nat) : Z := nth i u 0 mod 256.

(** [uuid.New()], from the 16 bytes read off the random source: version 4
    in the high nibble of byte 6, variant 10 in the top bits of byte 8. *)
Definition uuid_New (rnd : list Z) : UUID :=
  map (fun i =>
         let b := byte_at rnd i in
         if Nat.eqb i 6 then Z.lor (Z.land b 15) 64
         else if Nat.eqb i 8 then Z.lor (Z.land b 63) 128
         else b)
      (seq 0 16).

Definition hextable : string := "0123456789abcdef".

Definition hexdigit (n : Z) : string :=
  match String.get (Z.to_nat n) hextable with
  | Some c => String c EmptyString
  | None => ""
  end.

(** [hex.Encode]: two digits per byte, high nibble first. *)
Fixpoint hex_Encode (bs : list Z) : string :=
  match bs with
  | [] => ""
  | b :: bs' =>
      (hexdigit (Z.shiftr b 4) ++ hexdigit (Z.land b 15) ++ hex_Encode bs')%string
  end.

Definition slice (u : list Z) (lo hi : nat) : list Z :=
  firstn (hi - lo) (skipn lo u).

(** [UUID.String()]: xxxxxxxx-xxxx-xxxx-xxxx-xxxxxxxxxxxx. *)
Definition uuid_String (u : UUID) : string :=
  (hex_Encode (slice u 0 4) ++ "-" ++ hex_Encode (slice u 4 6) ++ "-"
   ++ hex_Encode (slice u 6 8) ++ "-" ++ hex_Encode (slice u 8 10) ++ "-"
   ++ hex_Encode (slice u 10 16))%string.

(* ================================================================== *)
(** ** The data model *)

(** [type Transaction struct] with its json tags. *)
Record Transaction := mkTransaction {
  ID : string;        (* json:"id" gorm:"primaryKey" *)
  Date : Time;        (* json:"date" *)
  ShipTo : string;    (* json:"ship_to" *)
  ItemList : string;  (* json:"items" *)
  Status : string     (* json:"status" *)
}.

(** [var transaction Transaction]: the zero value. *)
Definition zeroTransaction : Transaction :=
  mkTransaction "" zeroTime "" "" "".

Inductive Field := FID | FDate | FShipTo | FItemList | FStatus.

Definition tag (f : Field) : string :=
  match f with
  | FID => "id"
  | FDate => "date"
  | FShipTo => "ship_to"
  | FItemList => "items"
  | FStatus => "status"
  end.

Definition fields : list Field := [FID; FDate; FShipTo; FItemList; FStatus].

(* ================================================================== *)
(** ** What the handlers call and this repository does not define *)

(** Library functions whose result the handlers pass on without looking
    at it: the RFC 3339 reading of a [date] member by
    [Time.UnmarshalJSON], the rendering of a [Time] under [%+v], the
    bytes [json.Marshal] returns for a record (its error is dropped by
    the handler), and the exposition text of the metrics endpoint. *)
Class Library := {
  time_UnmarshalJSON : string -> option Time;
  time_String : Time -> string;
  json_Marshal : Transaction -> string;
  metrics_text : N -> N -> string
}.

(* ================================================================== *)
(** ** package encoding/json: decoding into a [Transaction] *)

(** A JSON text as the decoder's scanner delivers it, string literals
    unquoted, object members in the order written. *)
#[local] Set Warnings "-register-all".
Inductive json :=
| JNull
| JBool (b : bool)
| JNumber (lit : string)
| JString (s : string)
| JArray (elems : list json)
| JObject (members : list (string * json)).

(** A request body: [NoValue] when no complete JSON value can be read from
    it (empty body, syntax error), else the first value of the stream. *)
Inductive Body :=
| NoValue
| Value (v : json).

Definition caseMask (c : ascii) : N := N.land (N_of_ascii c) 223.

Definition isUpper (u : N) : bool := (65 <=? u)%N && (u <=? 90)%N.

Fixpoint stripPrefix (p t : string) : option string :=
  match p with
  | EmptyString => Some t
  | String c p' =>
      match t with
      | EmptyString => None
      | String d t' => if Ascii.eqb c d then stripPrefix p' t' else None
      end
  end.

(** UTF-8 of U+017F (long s) and of U+212A (Kelvin sign). *)
Definition smallLongEss : string :=
  String "197"%char (String "191"%char EmptyString).
Definition kelvin : string :=
  String "226"%char (String "132"%char (String "170"%char EmptyString)).

(** [equalFoldRight s t] of [encoding/json/fold.go]: [s] is the field
    name (ASCII), [t] the member key.  Letters match without regard to
    case, other ASCII bytes exactly, and in the key a long s stands for
    s and a Kelvin sign for k.  For an ASCII name without k or s this is
    also what [asciiEqualFold] and [simpleLetterEqualFold] compute. *)
Fixpoint equalFoldRight (s t : string) : bool :=
  match s with
  | EmptyString => match t with EmptyString => true | String _ _ => false end
  | String sb s' =>
      match t with
      | EmptyString => false
      | String tb t' =>
          if (N_of_ascii tb <? 128)%N then
            if Ascii.eqb sb tb then equalFoldRight s' t'
            else if isUpper (caseMask sb) && (caseMask sb =? caseMask tb)%N
                 then equalFoldRight s' t'
                 else false
          else if (caseMask sb =? 83)%N then
            match stripPrefix smallLongEss t with
            | Some t'' => equalFoldRight s' t''
            | None => false
            end
          else if (caseMask sb =? 75)%N then
            match stripPrefix kelvin t with
            | Some t'' => equalFoldRight s' t''
            | None => false
            end
          else false
      end
  end.

(** The field a member key selects: exact name first, else the first
    field whose name matches case-insensitively; [None] for an unknown
    key, whose value is skipped. *)
Definition lookupField (key : string) : option Field :=
  match find (fun f => (tag f =? key)%string) fields with
  | Some f => Some f
  | None => find (fun f => equalFoldRight (tag f) key) fields
  end.

(** A JSON value stored into a [string] field: null leaves the field,
    a string sets it, anything else is an [UnmarshalTypeError]. *)
Definition storeString (v : json) (old : string) : option string :=
  match v with
  | JNull => Some old
  | JString s => Some s
  | _ => None
  end.

Section Handlers.

Context {lib : Library}.

(** A JSON value stored into the [time.Time] field, through
    [Time.UnmarshalJSON].  A [JString] holds the decoded string, which is
    the text between the quotes for a literal written without escapes;
    Go 1.20 reads that text undecoded and so refuses a date written with
    escapes, which this tree cannot tell apart.  The server overwrites
    the date either way. *)
Definition storeTime (v : json) (old : Time) : option Time :=
  match v with
  | JNull => Some old
  | JString s => time_UnmarshalJSON s
  | _ => None
  end.

Definition setField (f : Field) (v : json) (tx : Transaction)
  : option Transaction :=
  match f with
  | FID =>
      option_map (fun x => mkTransaction x (Date tx) (ShipTo tx) (ItemList tx) (Status tx))
                 (storeString v (ID tx))
  | FDate =>
      option_map (fun x => mkTransaction (ID tx) x (ShipTo tx) (ItemList tx) (Status tx))
                 (storeTime v (Date tx))
  | FShipTo =>
      option_map (fun x => mkTransaction (ID tx) (Date tx) x (ItemList tx) (Status tx))
                 (storeString v (ShipTo tx))
  | FItemList =>
      option_map (fun x => mkTransaction (ID tx) (Date tx) (ShipTo tx) x (Status tx))
                 (storeString v (ItemList tx))
  | FStatus =>
      option_map (fun x => mkTransaction (ID tx) (Date tx) (ShipTo tx) (ItemList tx) x)
                 (storeString v (Status tx))
  end.

(** The members of an object, in order; a later member for the same field
    overwrites an earlier one.  [None] is a decoding error. *)
Fixpoint object (ms : list (string * json)) (tx : Transaction)
  : option Transaction :=
  match ms with
  | [] => Some tx
  | (k, v) :: ms' =>
      match lookupField k with
      | None => object ms' tx
      | Some f =>
          match setField f v tx with
          | Some tx' => object ms' tx'
          | None => None
          end
      end
  end.

(** [json.Unmarshal] into a struct: null is a no-op, an object is decoded
    member by member, any other value is an [UnmarshalTypeError]. *)
Definition Unmarshal (v : json) (tx : Transaction) : option Transaction :=
  match v with
  | JNull => Some tx
  | JObject ms => object ms tx
  | _ => None
  end.

(** [json.NewDecoder(r.Body).Decode(&transaction)]; [None] is [err != nil]. *)
Definition Decode (body : Body) : option Transaction :=
  match body with
  | NoValue => None
  | Value v => Unmarshal v zeroTransaction
  end.


(* ------------------------------------------------------------------ *)
(** ** The collaborators *)

(** The process state the handlers act on. *)
Record State := mkState {
  db : list Transaction;       (* rows of the transactions table, oldest first *)
  kafkaCalls : list string;    (* every message handed to WriteMessages *)
  topic : list string;         (* the messages the broker accepted *)
  inboundCounter : N;          (* inbound_requests_total *)
  outboundCounter : N;         (* outbound_requests_total *)
  logged : list string;        (* lines given to log.Printf *)
  printed : list string        (* lines the libraries' own loggers print *)
}.

(** What the runtime answers while one request is handled. *)
Record Env := mkEnv {
  randomBytes : list Z;        (* read by uuid.New *)
  clock : Time;                (* time.Now() *)
  createErr : option string;   (* an error db.Create meets, beyond the key *)
  publishErr : option string;  (* the error of WriteMessages, if any *)
  findErr : option string;     (* the error of db.Find, if any *)
  findOrder : list nat;        (* the order db.Find returns the rows in *)
  createTrace : list string;   (* what gorm's logger prints during db.Create *)
  findTrace : list string;     (* what gorm's logger prints during db.Find *)
  publishTrace : list string   (* what the writer gives to its ErrorLogger *)
}.

Definition set_db (rows : list Transaction) (s : State) : State :=
  mkState rows (kafkaCalls s) (topic s) (inboundCounter s)
          (outboundCounter s) (logged s) (printed s).

(** [inboundCounter.Inc()] *)
Definition inboundCounter_Inc (s : State) : State :=
  mkState (db s) (kafkaCalls s) (topic s) (inboundCounter s + 1)%N
          (outboundCounter s) (logged s) (printed s).

(** [outboundCounter.Inc()] *)
Definition outboundCounter_Inc (s : State) : State :=
  mkState (db s) (kafkaCalls s) (topic s) (inboundCounter s)
          (outboundCounter s + 1)%N (logged s) (printed s).

(** [log.Printf] (the logger's own timestamp prefix left out). *)
Definition log_Printf (line : string) (s : State) : State :=
  mkState (db s) (kafkaCalls s) (topic s) (inboundCounter s)
          (outboundCounter s) (logged s ++ [line]) (printed s).

(** The logger gorm works with: [gorm.Open] is given an empty
    [gorm.Config] (line 50), which leaves the default logger on; it
    prints a failed statement, and a slow one. *)
Definition gorm_logger (lines : list string) (s : State) : State :=
  mkState (db s) (kafkaCalls s) (topic s) (inboundCounter s)
          (outboundCounter s) (logged s) (printed s ++ lines).

(** The fields [initKafka] sets in the [kafka.WriterConfig]; the
    [ErrorLogger] is a [log.Logger] with this prefix. *)
Record WriterConfig := mkWriterConfig {
  Brokers : list string;
  Topic : string;
  BatchBytes : Z;
  ErrorLogger : string
}.

(** [func initKafka()] *)
Definition initKafka : WriterConfig :=
  mkWriterConfig ["broker:9092"] "edi_topic" (200 * 1024 * 1024) "KAFKA ERROR: ".

(** [var kafkaWriter *kafka.Writer], once [initKafka] has run. *)
Definition kafkaWriter : WriterConfig := initKafka.

Definition duplicateKey : string :=
  "duplicate key value violates unique constraint".

(** [db.Create(&transaction)]: an INSERT into a table whose primary key is
    [ID].  It fails when the collaborator reports an error or when a row
    with this key exists, and otherwise appends the row.  This is the
    outcome of the call; what gorm's logger prints during it is
    [createTrace], which the handler below passes to [gorm_logger]. *)
Definition db_Create (e : Env) (t : Transaction) (rows : list Transaction)
  : string + list Transaction :=
  match createErr e with
  | Some err => inl err
  | None =>
      if existsb (String.eqb (ID t)) (map ID rows)
      then inl duplicateKey
      else inr (rows ++ [t])
  end.

(** [db.Find(&transactions)]: a SELECT without ORDER BY: every row, in
    the order the store chooses ([findOrder]).  This is the outcome of
    the call; what gorm's logger prints during it is [findTrace]. *)
Definition db_Find (e : Env) (rows : list Transaction)
  : string + list Transaction :=
  match findErr e with
  | Some err => inl err
  | None => inr (reorder (findOrder e) rows)
  end.

(** [kafkaWriter.WriteMessages(ctx, kafka.Message{Value: event})]; what
    the writer reports meanwhile goes to its [ErrorLogger]. *)
Definition kafka_WriteMessages (e : Env) (event : string) (s : State)
  : State * option string :=
  let calls := kafkaCalls s ++ [event] in
  let out := printed s ++ map (append (ErrorLogger kafkaWriter)) (publishTrace e) in
  match publishErr e with
  | Some err =>
      (mkState (db s) calls (topic s) (inboundCounter s)
               (outboundCounter s) (logged s) out, Some err)
  | None =>
      (mkState (db s) calls (topic s ++ [event]) (inboundCounter s)
               (outboundCounter s) (logged s) out, None)
  end.

(* ------------------------------------------------------------------ *)
(** ** package net/http: the response *)

Definition StatusOK : Z := 200.
Definition StatusMovedPermanently : Z := 301.
Definition StatusBadRequest : Z := 400.
Definition StatusNotFound : Z := 404.
Definition StatusMethodNotAllowed : Z := 405.
Definition StatusInternalServerError : Z := 500.

(** An [http.ResponseWriter]: the status line once it is written, and the
    bytes of the body so far. *)
Record ResponseWriter := mkWriter {
  wroteHeader : option Z;
  written : string
}.

Definition newWriter : ResponseWriter := mkWriter None "".

Definition WriteHeader (code : Z) (w : ResponseWriter) : ResponseWriter :=
  match wroteHeader w with
  | None => mkWriter (Some code) (written w)
  | Some _ => w
  end.

(** [w.Write]: the first write sends status 200 when none was sent. *)
Definition Write (data : string) (w : ResponseWriter) : ResponseWriter :=
  let w' := WriteHeader StatusOK w in
  mkWriter (wroteHeader w') (written w' ++ data).

(** [fmt.Fprintln(w, s)] *)
Definition Fprintln (w : ResponseWriter) (s : string) : ResponseWriter :=
  Write (s ++ nl) w.

(** [http.Error(w, msg, code)] *)
Definition http_Error (w : ResponseWriter) (msg : string) (code : Z)
  : ResponseWriter :=
  Fprintln (WriteHeader code w) msg.

Record Response := mkResponse {
  status : Z;
  body : string
}.

(** What the server sends when the handler returns: 200 when the handler
    wrote no status. *)
Definition finish (w : ResponseWriter) : Response :=
  mkResponse (match wroteHeader w with Some c => c | None => StatusOK end)
             (written w).

(* ------------------------------------------------------------------ *)
(** ** The handlers *)

(** Lines 78-80: the three fields the server sets. *)
Definition stamp (e : Env) (transaction : Transaction) : Transaction :=
  let transaction :=
    mkTransaction (uuid_String (uuid_New (randomBytes e))) (Date transaction)
                  (ShipTo transaction) (ItemList transaction)
                  (Status transaction) in
  let transaction :=
    mkTransaction (ID transaction) (Date transaction) (ShipTo transaction)
                  (ItemList transaction) "Processed" in
  mkTransaction (ID transaction) (clock e) (ShipTo transaction)
                (ItemList transaction) (Status transaction).

(** A [Transaction] under the verb [%+v]. *)
Definition plus_v (t : Transaction) : string :=
  ("{ID:" ++ ID t ++ " Date:" ++ time_String (Date t)
   ++ " ShipTo:" ++ ShipTo t ++ " ItemList:" ++ ItemList t
   ++ " Status:" ++ Status t ++ "}")%string.

(** [func inboundHandler(w http.ResponseWriter, r *http.Request)] *)
Definition inboundHandler (e : Env) (reqBody : Body) (s : State)
  : State * Response :=
  let w := newWriter in
  let s := inboundCounter_Inc s in
  match Decode reqBody with
  | None => (s, finish (http_Error w "Invalid JSON" StatusBadRequest))
  | Some transaction =>
      let transaction := stamp e transaction in
      let s := gorm_logger (createTrace e) s in
      match db_Create e transaction (db s) with
      | inl err =>
          let s := log_Printf ("ERROR: " ++ err ++ nl) s in
          (s, finish (http_Error w "Failed to save transaction"
                                 StatusInternalServerError))
      | inr rows =>
          let s := set_db rows s in
          let event := json_Marshal transaction in
          match kafka_WriteMessages e event s with
          | (s, Some err) =>
              let w := http_Error w "Failed to publish to Kafka"
                                  StatusInternalServerError in
              let s := log_Printf ("Kafka publish error: " ++ err ++ nl) s in
              (s, finish w)
          | (s, None) =>
              (s, finish (Write ("Inbound transaction processed: "
                                 ++ plus_v transaction ++ nl) w))
          end
      end
  end.

(** Line 111: the text [fmt.Sprintf] builds for one row. *)
Definition edi (t : Transaction) : string :=
  ("EDI 856: Shipment " ++ ID t ++ " to " ++ ShipTo t ++ " on "
   ++ Format (Date t) ++ " with items: " ++ ItemList t ++ nl)%string.

(** [func outboundHandler(w http.ResponseWriter, r *http.Request)] *)
Definition outboundHandler (e : Env) (s : State) : State * Response :=
  let w := newWriter in
  let s := outboundCounter_Inc s in
  let s := gorm_logger (findTrace e) s in
  match db_Find e (db s) with
  | inl _ =>
      (s, finish (http_Error w "Failed to fetch transactions"
                             StatusInternalServerError))
  | inr transactions =>
      (s, finish (fold_left (fun w t => Fprintln w (edi t)) transactions w))
  end.

(* ------------------------------------------------------------------ *)
(** ** The routes of [main] *)

Record Request := mkRequest {
  method : string;
  path : string;      (* the URL path *)
  payload : Body;
  env : Env
}.

Inductive Route :=
| RInbound
| ROutbound
| RMetrics
| RMethodNotAllowed
| RNotFound
| RRedirect.

(** [Router.ServeHTTP] of gorilla/mux: a path that is not in canonical
    form is redirected to its canonical form before any route is tried
    (the router is made with [mux.NewRouter()], which cleans paths); then
    the three routes, in the order they are registered. *)
Definition route (m p : string) : Route :=
  if negb (cleanPath p =? p)%string then RRedirect
  else if (p =? "/inbound")%string then
    if (m =? "POST")%string then RInbound else RMethodNotAllowed
  else if (p =? "/outbound")%string then
    if (m =? "GET")%string then ROutbound else RMethodNotAllowed
  else if (p =? "/metrics")%string then RMetrics
  else RNotFound.

Definition serve (r : Request) (s : State) : State * Response :=
  match route (method r) (path r) with
  | RInbound => inboundHandler (env r) (payload r) s
  | ROutbound => outboundHandler (env r) s
  | RMetrics =>
      (s, mkResponse StatusOK
                     (metrics_text (inboundCounter s) (outboundCounter s)))
  | RMethodNotAllowed => (s, mkResponse StatusMethodNotAllowed "")
  | RNotFound => (s, finish (http_Error newWriter "404 page not found"
                                        StatusNotFound))
  | RRedirect => (s, finish (WriteHeader StatusMovedPermanently newWriter))
  end.

(** The server state after a sequence of requests, one after another. *)
Fixpoint run (rs : list Request) (s : State) : State :=
  match rs with
  | [] => s
  | r :: rs' => run rs' (fst (serve r s))
  end.

End Handlers.

(* ================================================================== *)
(** ** The egress report, as the specification words it *)

(** The formatted line of one record, without its terminator. *)
Definition record_line (t : Transaction) : string :=
  ("EDI 856: Shipment " ++ ID t ++ " to " ++ ShipTo t ++ " on "
   ++ Format (Date t) ++ " with items: " ++ ItemList t)%string.

(** The report of a list of rows: each record's line, then an empty
    line. *)
Fixpoint report (rows : list Transaction) : string :=
  match rows with
  | [] => ""
  | t :: rows' => (record_line t ++ nl ++ nl ++ report rows')%string
  end.

(** A line shows the four items of its record. *)
Definition shows (l : string) (t : Transaction) : Prop :=
  contains (ID t) l /\ contains (ShipTo t) l
  /\ contains (Format (Date t)) l /\ contains (ItemList t) l.

(** The reading under which the body is one line per record and nothing
    else: its lines, in order, are the records' lines. *)
Definition one_line_per_record : Prop :=
  forall e s rows,
    db_Find e (db s) = inr rows ->
    Forall2 shows (lines (body (snd (outboundHandler e s)))) rows.

(** No newline in what the record brings to its line. *)
Definition plain_fields (t : Transaction) : bool :=
  newline_free (ID t) && newline_free (ShipTo t) && newline_free (ItemList t).

(** The requests of a sequence that the router hands to each handler. *)
Definition toInbound (r : Request) : bool :=
  match route (method r) (path r) with RInbound => true | _ => false end.

Definition toOutbound (r : Request) : bool :=
  match route (method r) (path r) with ROutbound => true | _ => false end.

(** The body supplies the string [p] under [key]: it is an object with a
    member [key: p], and no member after it is decoded into the item-list
    field. *)
Definition supplies (b : Body) (key p : string) : Prop :=
  exists ms1 ms2,
    b = Value (JObject (ms1 ++ (key, JString p) :: ms2))
    /\ forall k v, In (k, v) ms2 -> lookupField k <> Some FItemList.

(** The round trip of the payload a body supplies under [key]: the
    created record holds it and the egress output shows it. *)
Definition round_trip_under (lib : Library) (key : string) : Prop :=
  forall e b p s tx rows e',
    supplies b key p ->
    Decode b = Some tx ->
    db_Create e (stamp e tx) (db s) = inr rows ->
    findErr e' = None ->
    exists t,
      db (fst (inboundHandler e b s)) = db s ++ [t]
      /\ ItemList t = p
      /\ contains p (body (snd (outboundHandler e' (fst (inboundHandler e b s))))).

(** The reading under which a request that does not decode changes
    nothing at all. *)
Definition malformed_input_is_inert (lib : Library) : Prop :=
  forall e b s,
    Decode b = None ->
    status (snd (inboundHandler e b s)) = StatusBadRequest
    /\ fst (inboundHandler e b s) = s.

(* ================================================================== *)
(** ** Further vocabulary *)

(** A JSON value a [string] field refuses. *)
Definition refused_by_string (v : json) : bool :=
  match v with
  | JNull | JString _ => false
  | _ => true
  end.

Definition is_string_field (f : Field) : bool :=
  match f with
  | FDate => false
  | _ => true
  end.

(** What lines 78-79 give every row the handler writes. *)
Definition server_made (t : Transaction) : Prop :=
  Status t = "Processed" /\ String.length (ID t) = 36%nat.

(** Every message on the topic is the event of a row of the table. *)
Definition published_are_stored (lib : Library) (s : State) : Prop :=
  forall m, In m (topic s) -> exists t, In t (db s) /\ m = json_Marshal t.

(** The variant digits of a version 4 identifier. *)
Definition variant_digit (c : ascii) : bool :=
  Ascii.eqb c "8" || Ascii.eqb c "9" || Ascii.eqb c "a" || Ascii.eqb c "b".

(* ------------------------------------------------------------------ *)
(** ** Start-up *)

(** What the runtime answers at start-up. *)
Record BootEnv := mkBootEnv {
  openErr : option string;      (* the error of gorm.Open, if any *)
  migrateErr : option string;   (* the error of db.AutoMigrate, if any *)
  bootTrace : list string       (* what gorm's logger prints meanwhile *)
}.

(** [func initDB() error]: [None] is a nil error.  [AutoMigrate] is
    reached only when [gorm.Open] succeeded. *)
Definition initDB (be : BootEnv) : option string :=
  match openErr be with
  | Some err => Some err
  | None => migrateErr be
  end.

(** [func main()] up to [http.ListenAndServe]: either the fatal log line,
    or the state the server starts to serve from.  [rows] and [onTopic]
    are what the table and the broker hold when the process starts; the
    counters are new, and so is the writer. *)
Definition main (be : BootEnv) (rows : list Transaction) (onTopic : list string)
  : string + State :=
  match initDB be with
  | Some err => inl ("Failed to initialize database: " ++ err)%string
  | None =>
      inr (mkState rows [] onTopic 0 0 ["Server running on port 8086"]
                   (bootTrace be))
  end.

(* ================================================================== *)
(** ** Sample data *)

Definition quietEnv : Env :=
  mkEnv [] (mkTime 2024 5 17 9 30 0 0 "UTC" 0 None) None None None [] [] [] [].

Definition emptyState : State := mkState [] [] [] 0 0 [] [].

Definition acmeRow : Transaction :=
  mkTransaction "00000000-0000-4000-8000-000000000000"
                (mkTime 2024 5 17 9 30 0 0 "UTC" 0 None)
                "Acme" "A1" "Processed".

Definition acmeState : State := mkState [acmeRow] [] [] 1 0 [] [].

(** [[{"sku":"A1"}]] *)
Definition acmeItems : string :=
  ("[{" ++ dquote ++ "sku" ++ dquote ++ ":" ++ dquote ++ "A1" ++ dquote ++ "}]")%string.

(** The body of the specification's scenario, with the key [item_list]. *)
Definition acmeBody : Body :=
  Value (JObject [("ship_to", JString "Acme"); ("item_list", JString acmeItems)]).

(** The same payload under the key of the json tag. *)
Definition itemsBody : Body :=
  Value (JObject [("ship_to", JString "Acme"); ("items", JString acmeItems)]).

(** A body that also tries to set the three fields of the server. *)
Definition overridingBody : Body :=
  Value (JObject [("id", JString "client-1");
                  ("date", JString "2020-01-01T00:00:00Z");
                  ("status", JString "Pending");
                  ("ship_to", JString "Acme");
                  ("items", JString "A1")]).

(** [{}] *)
Definition emptyObject : Body := Value (JObject []).

(** An instance of the library to run the handlers on the samples. *)
Definition sampleLibrary : Library :=
  {| time_UnmarshalJSON := fun s =>
       if (s =? "2020-01-01T00:00:00Z")%string
       then Some (mkTime 2020 1 1 0 0 0 0 "UTC" 0 None)
       else None;
     time_String := Format;
     json_Marshal := fun t => (ID t ++ "|" ++ ShipTo t ++ "|" ++ ItemList t)%string;
     metrics_text := fun _ _ => "" |}.

Definition refusingEnv : Env :=
  mkEnv [] (mkTime 2024 5 17 9 30 0 0 "UTC" 0 None)
        (Some "connection refused") None None []
        ["INSERT INTO transactions: connection refused"] [] [].

Definition unpublishedEnv : Env :=
  mkEnv [] (mkTime 2024 5 17 9 30 0 0 "UTC" 0 None)
        None (Some "broker unreachable") None [] [] []
        ["error writing messages to edi_topic: broker unreachable"].

Definition laterEnv : Env :=
  mkEnv [1] (mkTime 2024 5 17 9 31 0 0 "UTC" 0 None) None None None [] [] [] [].

Definition unreadableEnv : Env :=
  mkEnv [] (mkTime 2024 5 17 9 32 0 0 "UTC" 0 None)
        None None (Some "connection reset") [] []
        ["SELECT * FROM transactions: connection reset"] [].

(** A read that returns the first two rows the other way round. *)
Definition shuffledEnv : Env :=
  mkEnv [] (mkTime 2024 5 17 9 33 0 0 "UTC" 0 None) None None None [0%nat] [] [] [].

Definition goodBoot : BootEnv := mkBootEnv None None [].

(** Three ingress calls, the third with the random bytes of the first,
    and an egress call. *)
Definition sampleRun : list Request :=
  [mkRequest "POST" "/inbound" itemsBody quietEnv;
   mkRequest "POST" "/inbound" emptyObject laterEnv;
   mkRequest "GET" "/outbound" NoValue quietEnv;
   mkRequest "POST" "/inbound" itemsBody quietEnv].

(* ================================================================== *)
(** * Facts *)

(** ** Text *)

Lemma append_nil_r (s : string) : (s ++ "")%string = s.
Proof. induction s as [|c s IH]; simpl; [reflexivity | now rewrite IH]. Qed.

Lemma append_assoc (a b c : string) :
  ((a ++ b) ++ c)%string = (a ++ (b ++ c))%string.
Proof. induction a as [|x a IH]; simpl; [reflexivity | now rewrite IH]. Qed.

Lemma length_append (a b : string) :
  String.length (a ++ b) = (String.length a + String.length b)%nat.
Proof. induction a as [|x a IH]; simpl; [reflexivity | now rewrite IH]. Qed.

Lemma contains_refl (s : string) : contains s s.
Proof. exists "", "". simpl. now rewrite append_nil_r. Qed.

Lemma contains_app_l (sub a b : string) :
  contains sub a -> contains sub (a ++ b).
Proof.
  intros (pre & post & ->). exists pre, (post ++ b)%string.
  now rewrite !append_assoc.
Qed.

Lemma contains_app_r (sub a b : string) :
  contains sub b -> contains sub (a ++ b).
Proof.
  intros (pre & post & ->). exists (a ++ pre)%string, post.
  now rewrite !append_assoc.
Qed.

Lemma contains_trans (a b c : string) :
  contains a b -> contains b c -> contains a c.
Proof.
  intros (p1 & q1 & ->) (p2 & q2 & ->).
  exists (p2 ++ p1)%string, (q1 ++ q2)%string.
  now rewrite !append_assoc.
Qed.

Lemma prefix_iff (p s : string) :
  String.prefix p s = true <-> exists post, s = (p ++ post)%string.
Proof.
  revert s. induction p as [|c p IH]; intros s.
  - destruct s; simpl; split; eauto.
  - destruct s as [|d s]; simpl.
    + split; [discriminate | intros (post & H); discriminate].
    + destruct (ascii_dec c d) as [->|Hne].
      * rewrite IH. split; intros (post & H); exists post.
        -- now rewrite H.
        -- now inversion H.
      * split; [discriminate | intros (post & H)].
        inversion H. congruence.
Qed.

Lemma containsb_step (sub : string) (c : ascii) (s : string) :
  containsb sub (String c s) = String.prefix sub (String c s) || containsb sub s.
Proof. reflexivity. Qed.

Lemma containsb_iff (sub s : string) :
  containsb sub s = true <-> contains sub s.
Proof.
  split.
  - induction s as [|c s IH].
    + unfold containsb. rewrite orb_false_r. intros H.
      apply prefix_iff in H as (post & ->). now exists "", post.
    + rewrite containsb_step, orb_true_iff. intros [H | H].
      * apply prefix_iff in H as (post & ->). now exists "", post.
      * destruct (IH H) as (pre & post & ->). now exists (String c pre), post.
  - intros (pre & post & ->). induction pre as [|c pre IH].
    + assert (P : String.prefix sub ("" ++ sub ++ post) = true)
        by (apply prefix_iff; now exists post).
      destruct ("" ++ sub ++ post)%string;
        [unfold containsb | rewrite containsb_step]; now rewrite P.
    + change (String c pre ++ sub ++ post)%string
        with (String c (pre ++ sub ++ post)).
      rewrite containsb_step, IH. apply orb_true_r.
Qed.

Lemma containsb_false (sub s : string) :
  containsb sub s = false -> ~ contains sub s.
Proof.
  intros H C. apply containsb_iff in C. congruence.
Qed.

(** A line without newline, then a newline: the scanner returns it and
    starts afresh. *)
Lemma lines_from_line (a : string) :
  newline_free a = true ->
  forall cur rest,
    lines_from cur (a ++ nl ++ rest) = (cur ++ a)%string :: lines_from "" rest.
Proof.
  induction a as [|c a IH]; intros Ha cur rest.
  - cbn. now rewrite append_nil_r.
  - cbn [newline_free] in Ha. apply andb_true_iff in Ha as [Hc Ha].
    apply negb_true_iff in Hc.
    change (String c a ++ nl ++ rest)%string with (String c (a ++ nl ++ rest)).
    cbn [lines_from]. rewrite Hc, (IH Ha). f_equal.
    now rewrite append_assoc.
Qed.

Lemma below_cases (k : nat) (P : Z -> bool) :
  forallb (fun n => P (Z.of_nat n)) (seq 0 k) = true ->
  forall x, 0 <= x < Z.of_nat k -> P x = true.
Proof.
  intros H x Hx. rewrite forallb_forall in H.
  specialize (H (Z.to_nat x)). rewrite Z2Nat.id in H by lia.
  apply H, in_seq. lia.
Qed.

(* ------------------------------------------------------------------ *)
(** ** The layout *)

Lemma appendInt_width2 (x : Z) :
  0 <= x < 100 -> String.length (appendInt x 2) = 2%nat.
Proof.
  intros H. apply Nat.eqb_eq.
  apply (below_cases 100 (fun x => Nat.eqb (String.length (appendInt x 2)) 2));
    [vm_compute; reflexivity | exact H].
Qed.

Lemma appendInt_width4 (x : Z) :
  0 <= x < 10000 -> String.length (appendInt x 4) = 4%nat.
Proof.
  intros H. apply Nat.eqb_eq.
  apply (below_cases (100 * 100) (fun x => Nat.eqb (String.length (appendInt x 4)) 4));
    [vm_compute; reflexivity | exact H].
Qed.

(** For a date of the years 0 to 9999 the text has the 19 characters of
    the layout. *)
Lemma Format_length (t : Time) :
  0 <= year t < 10000 ->
  0 <= month t < 100 -> 0 <= day t < 100 ->
  0 <= hour t < 100 -> 0 <= minute t < 100 -> 0 <= second t < 100 ->
  String.length (Format t) = String.length layout.
Proof.
  intros Hy Hm Hd Hh Hi Hs. unfold Format.
  rewrite !length_append, (appendInt_width4 _ Hy), (appendInt_width2 _ Hm),
    (appendInt_width2 _ Hd), (appendInt_width2 _ Hh), (appendInt_width2 _ Hi),
    (appendInt_width2 _ Hs).
  reflexivity.
Qed.

(* ------------------------------------------------------------------ *)
(** ** The order of a read *)

Lemma swap_at_perm (A : Type) (i : nat) (l : list A) :
  Permutation (swap_at i l) l.
Proof.
  revert i. induction l as [|x l IH]; intros i; [apply perm_nil |].
  destruct i as [|i]; cbn [swap_at].
  - destruct l as [|y l]; [reflexivity | apply perm_swap].
  - apply perm_skip, IH.
Qed.

Lemma reorder_perm (A : Type) (swaps : list nat) :
  forall l : list A, Permutation (reorder swaps l) l.
Proof.
  unfold reorder. induction swaps as [|i swaps IH]; intros l; cbn [fold_left].
  - reflexivity.
  - rewrite IH. apply swap_at_perm.
Qed.

Lemma reorder_In (A : Type) (swaps : list nat) (l : list A) (x : A) :
  In x l -> In x (reorder swaps l).
Proof.
  intros H. apply Permutation_in with (l := l); [| exact H].
  symmetry. apply reorder_perm.
Qed.

Lemma reorder_nil (A : Type) (swaps : list nat) : reorder swaps (@nil A) = [].
Proof. apply Permutation_nil, Permutation_sym, reorder_perm. Qed.

Lemma reorder_app (A : Type) (sw1 sw2 : list nat) (l : list A) :
  reorder (sw1 ++ sw2) l = reorder sw2 (reorder sw1 l).
Proof. unfold reorder. apply fold_left_app. Qed.

Lemma reorder_under (A : Type) (swaps : list nat) (x : A) :
  forall l, reorder (map S swaps) (x :: l) = x :: reorder swaps l.
Proof.
  unfold reorder. induction swaps as [|i swaps IH]; intros l; [reflexivity |].
  cbn [map fold_left swap_at]. apply IH.
Qed.

(** Every order of the rows is the answer of some read. *)
Lemma reorder_complete (A : Type) (l l' : list A) :
  Permutation l l' -> exists swaps, reorder swaps l = l'.
Proof.
  induction 1 as [| x l l' _ [sw IH] | x y l | l l' l'' _ [sw1 IH1] _ [sw2 IH2]].
  - now exists [].
  - exists (map S sw). now rewrite reorder_under, IH.
  - now exists [0%nat].
  - exists (sw1 ++ sw2). now rewrite reorder_app, IH1, IH2.
Qed.

(* ------------------------------------------------------------------ *)
(** ** The egress handler *)

Lemma edi_record_line (t : Transaction) :
  edi t = (record_line t ++ nl)%string.
Proof. unfold edi, record_line. now rewrite !append_assoc. Qed.

Lemma record_line_shows (t : Transaction) : shows (record_line t) t.
Proof.
  unfold shows, record_line. repeat split.
  - apply contains_app_r, contains_app_l, contains_refl.
  - do 3 apply contains_app_r. apply contains_app_l, contains_refl.
  - do 5 apply contains_app_r. apply contains_app_l, contains_refl.
  - do 7 apply contains_app_r. apply contains_refl.
Qed.

(** One [Fprintln] keeps the status the response will carry and appends
    the text and a newline. *)
Lemma status_Fprintln (w : ResponseWriter) (text : string) :
  status (finish (Fprintln w text)) = status (finish w).
Proof. destruct w as [[code|] out]; reflexivity. Qed.

Lemma written_Fprintln (w : ResponseWriter) (text : string) :
  written (Fprintln w text) = (written w ++ text ++ nl)%string.
Proof. destruct w as [[code|] out]; reflexivity. Qed.

(** The loop of lines 110-114, from any writer. *)
Lemma finish_loop (rows : list Transaction) :
  forall w,
    finish (fold_left (fun w t => Fprintln w (edi t)) rows w)
    = mkResponse (status (finish w)) (written w ++ report rows).
Proof.
  induction rows as [|t rows IH]; intros w; cbn [fold_left report].
  - rewrite append_nil_r. reflexivity.
  - rewrite IH, status_Fprintln, written_Fprintln, edi_record_line.
    now rewrite !append_assoc.
Qed.

Lemma outboundHandler_ok (e : Env) (s : State) :
  findErr e = None ->
  outboundHandler e s
  = (gorm_logger (findTrace e) (outboundCounter_Inc s),
     mkResponse StatusOK (report (reorder (findOrder e) (db s)))).
Proof.
  intros H. unfold outboundHandler, db_Find. cbv zeta.
  cbn [db gorm_logger outboundCounter_Inc]. rewrite H.
  now rewrite finish_loop.
Qed.

Lemma outboundHandler_err (e : Env) (s : State) (err : string) :
  findErr e = Some err ->
  outboundHandler e s
  = (gorm_logger (findTrace e) (outboundCounter_Inc s),
     mkResponse StatusInternalServerError ("Failed to fetch transactions" ++ nl)).
Proof.
  intros H. unfold outboundHandler, db_Find. cbv zeta.
  cbn [db gorm_logger outboundCounter_Inc]. now rewrite H.
Qed.

(** The line of a stored row is part of the report. *)
Lemma report_contains (rows : list Transaction) (t : Transaction) :
  In t rows -> contains (record_line t ++ nl ++ nl) (report rows).
Proof.
  induction rows as [|x rows IH]; cbn [In report]; [tauto | intros [-> | H]].
  - exists "", (report rows). cbn [append]. now rewrite !append_assoc.
  - do 3 apply contains_app_r. auto.
Qed.

Lemma concat_cons (x : string) (xs : list string) :
  String.concat "" (x :: xs) = (x ++ String.concat "" xs)%string.
Proof.
  destruct xs; cbn [String.concat append]; [now rewrite append_nil_r | reflexivity].
Qed.

Lemma report_concat (rows : list Transaction) :
  report rows
  = String.concat "" (map (fun t => (record_line t ++ nl ++ nl)%string) rows).
Proof.
  induction rows as [|t rows IH]; [reflexivity |].
  cbn [report map]. rewrite concat_cons, <- IH. now rewrite !append_assoc.
Qed.

(** Read line by line, the report has two lines per record: the record's
    and an empty one. *)
Lemma report_lines (rows : list Transaction) :
  Forall (fun t => newline_free (record_line t) = true) rows ->
  lines (report rows) = flat_map (fun t => [record_line t; ""]) rows.
Proof.
  unfold lines. induction 1 as [|t rows Ht _ IH]; [reflexivity |].
  cbn [report flat_map app].
  rewrite (lines_from_line _ Ht). cbn [append].
  change (nl ++ report rows)%string with ("" ++ nl ++ report rows)%string.
  rewrite (lines_from_line "" eq_refl). now rewrite IH.
Qed.

Lemma newline_free_append (a b : string) :
  newline_free (a ++ b) = newline_free a && newline_free b.
Proof.
  induction a as [|c a IH]; [reflexivity |].
  cbn [append newline_free]. now rewrite IH, andb_assoc.
Qed.

Lemma newline_free_zeros (n : nat) : newline_free (zeros n) = true.
Proof. induction n as [|n IH]; [reflexivity | exact IH]. Qed.

Lemma newline_free_decimal (n : N) : newline_free (decimal n) = true.
Proof.
  unfold decimal. induction (N.to_uint n) as [|d IH|d IH|d IH|d IH|d IH|d IH|d IH|d IH|d IH|d IH];
    [reflexivity | exact IH ..].
Qed.

Lemma newline_free_appendInt (x : Z) (width : nat) :
  newline_free (appendInt x width) = true.
Proof.
  unfold appendInt. cbv zeta.
  rewrite !newline_free_append, newline_free_zeros, newline_free_decimal.
  now destruct (x <? 0).
Qed.

Lemma newline_free_Format (t : Time) : newline_free (Format t) = true.
Proof.
  unfold Format. rewrite !newline_free_append, !newline_free_appendInt.
  reflexivity.
Qed.

Lemma plain_record_line (t : Transaction) :
  plain_fields t = true -> newline_free (record_line t) = true.
Proof.
  unfold plain_fields. rewrite !andb_true_iff. intros [[H1 H2] H3].
  unfold record_line. rewrite !newline_free_append, H1, H2, H3, newline_free_Format.
  reflexivity.
Qed.

(** C6, as amended: a successful egress call answers 200 and its body
    is, in the order the read returns the rows (every row of the table,
    once), the concatenation of one formatted text per record, each
    followed by two newline characters (the one of the format string and
    the one [Fprintln] adds); the text of a record contains its
    identifier, its destination, its date under the layout
    2006-01-02 15:04:05 and its raw item payload; and when no
    identifier, destination or item payload holds a newline character,
    the body read line by line is, for each record, its text as one line
    and then an empty line. *)
Theorem outbound_report_format (e : Env) (s : State) :
  findErr e = None ->
  exists rows,
    db_Find e (db s) = inr rows
    /\ Permutation rows (db s)
    /\ status (snd (outboundHandler e s)) = StatusOK
    /\ body (snd (outboundHandler e s))
       = String.concat "" (map (fun t => (record_line t ++ nl ++ nl)%string) rows)
    /\ Forall (fun t => shows (record_line t) t) rows
    /\ (Forall (fun t => plain_fields t = true) rows ->
        lines (body (snd (outboundHandler e s)))
        = flat_map (fun t => [record_line t; ""]) rows).
Proof.
  intros H. exists (reorder (findOrder e) (db s)).
  rewrite (outboundHandler_ok e s H). cbn [snd status body].
  split; [unfold db_Find; now rewrite H |].
  split; [apply reorder_perm |].
  split; [reflexivity | split; [apply report_concat | split]].
  - apply Forall_forall. intros t _. apply record_line_shows.
  - intros Hp. apply report_lines.
    apply Forall_forall. intros t Ht. apply plain_record_line.
    revert t Ht. now apply Forall_forall.
Qed.

Lemma outbound_report_format_witness :
  findErr quietEnv = None
  /\ exists rows,
       db_Find quietEnv (db acmeState) = inr rows
       /\ Permutation rows (db acmeState)
       /\ status (snd (outboundHandler quietEnv acmeState)) = StatusOK
       /\ body (snd (outboundHandler quietEnv acmeState))
          = String.concat "" (map (fun t => (record_line t ++ nl ++ nl)%string) rows)
       /\ Forall (fun t => shows (record_line t) t) rows
       /\ (Forall (fun t => plain_fields t = true) rows ->
           lines (body (snd (outboundHandler quietEnv acmeState)))
           = flat_map (fun t => [record_line t; ""]) rows).
Proof.
  split; [reflexivity |].
  exact (outbound_report_format quietEnv acmeState eq_refl).
Defined.

(** C6, as stated, fails: with one stored record the body has two lines,
    the record's and an empty one, so its lines are not one per record. *)
Lemma report_is_not_one_line_per_record : ~ one_line_per_record.
Proof.
  intros H. specialize (H quietEnv acmeState [acmeRow] eq_refl).
  apply Forall2_length in H. vm_compute in H. discriminate.
Qed.

(** C9: with no stored record and a storage read that succeeds, the
    egress response has status 200 and an empty body. *)
Theorem outbound_empty_store (e : Env) (s : State) :
  db s = [] ->
  findErr e = None ->
  status (snd (outboundHandler e s)) = 200 /\ body (snd (outboundHandler e s)) = "".
Proof.
  intros Hdb Hf. rewrite (outboundHandler_ok e s Hf), Hdb, reorder_nil. now split.
Qed.

Lemma outbound_empty_store_witness :
  db emptyState = [] /\ findErr quietEnv = None
  /\ snd (outboundHandler quietEnv emptyState) = mkResponse 200 "".
Proof.
  split; [reflexivity | split; [reflexivity |]].
  destruct (outbound_empty_store quietEnv emptyState eq_refl eq_refl) as [Hs Hb].
  destruct (snd (outboundHandler quietEnv emptyState)); simpl in *.
  now rewrite Hs, Hb.
Defined.

(* ------------------------------------------------------------------ *)
(** ** Identifiers *)

Lemma byte_at_is_byte (u : list Z) (i : nat) : is_byte (byte_at u i).
Proof. unfold is_byte, byte_at. apply Z.mod_pos_bound. lia. Qed.

Lemma log2_byte (a : Z) : is_byte a -> Z.log2 a < 8.
Proof.
  intros [H0 H1]. destruct (Z.eq_dec a 0) as [-> | Hne]; [reflexivity |].
  apply Z.log2_lt_pow2; lia.
Qed.

Lemma lor_is_byte (a b : Z) : is_byte a -> is_byte b -> is_byte (Z.lor a b).
Proof.
  intros Ha Hb. pose proof (log2_byte a Ha) as La. pose proof (log2_byte b Hb) as Lb.
  destruct Ha as [Ha0 Ha1], Hb as [Hb0 Hb1].
  assert (H0 : 0 <= Z.lor a b) by (apply Z.lor_nonneg; lia).
  split; [exact H0 |].
  destruct (Z.eq_dec (Z.lor a b) 0) as [-> | Hne]; [lia |].
  change 256 with (2 ^ 8). apply Z.log2_lt_pow2; [lia |].
  rewrite Z.log2_lor by lia. lia.
Qed.

Lemma land_low_bits (b : Z) (n : Z) :
  0 <= n <= 8 -> is_byte (Z.land b (Z.ones n)).
Proof.
  intros Hn. rewrite Z.land_ones by lia. unfold is_byte.
  assert (P : 0 < 2 ^ n) by (apply Z.pow_pos_nonneg; lia).
  assert (Q : 2 ^ n <= 2 ^ 8) by (apply Z.pow_le_mono_r; lia).
  pose proof (Z.mod_pos_bound b (2 ^ n) P). change (2 ^ 8) with 256 in Q. lia.
Qed.

Lemma uuid_New_bytes (rnd : list Z) : Forall is_byte (uuid_New rnd).
Proof.
  unfold uuid_New. apply Forall_map, Forall_forall. intros i _.
  cbv zeta.
  destruct (Nat.eqb i 6).
  - apply lor_is_byte; [apply (land_low_bits _ 4); lia | unfold is_byte; lia].
  - destruct (Nat.eqb i 8).
    + apply lor_is_byte; [apply (land_low_bits _ 6); lia | unfold is_byte; lia].
    + apply byte_at_is_byte.
Qed.

Lemma uuid_New_length (rnd : list Z) : List.length (uuid_New rnd) = 16%nat.
Proof. unfold uuid_New. now rewrite length_map, length_seq. Qed.

Lemma hexdigit_length (n : Z) :
  0 <= n < 16 -> String.length (hexdigit n) = 1%nat.
Proof.
  intros H. apply Nat.eqb_eq.
  apply (below_cases 16 (fun n => Nat.eqb (String.length (hexdigit n)) 1));
    [reflexivity | exact H].
Qed.

Lemma hex_Encode_length (bs : list Z) :
  Forall is_byte bs ->
  String.length (hex_Encode bs) = (2 * List.length bs)%nat.
Proof.
  induction 1 as [|b bs [Hb0 Hb1] _ IH]; [reflexivity |].
  cbn [hex_Encode List.length]. rewrite !length_append, IH.
  rewrite !hexdigit_length; [lia | |].
  - change 15 with (Z.ones 4). rewrite Z.land_ones by lia.
    apply Z.mod_pos_bound. lia.
  - rewrite Z.shiftr_div_pow2 by lia. change (2 ^ 4) with 16.
    split; [apply Z.div_pos; lia | apply Z.div_lt_upper_bound; lia].
Qed.

Lemma slice_bytes (u : list Z) (lo hi : nat) :
  Forall is_byte u -> Forall is_byte (slice u lo hi).
Proof.
  intros H. apply Forall_forall. intros x Hx. unfold slice in Hx.
  assert (H1 : In x (skipn lo u)).
  { rewrite <- (firstn_skipn (hi - lo) (skipn lo u)). apply in_or_app. now left. }
  assert (H2 : In x u).
  { rewrite <- (firstn_skipn lo u). apply in_or_app. now right. }
  revert x H2 Hx H1. intros x H2 _ _. revert x H2. now apply Forall_forall.
Qed.

Lemma slice_length (u : list Z) (lo hi : nat) :
  (hi <= List.length u)%nat -> List.length (slice u lo hi) = (hi - lo)%nat.
Proof. intros H. unfold slice. rewrite length_firstn, length_skipn. lia. Qed.

(** The text of a generated identifier has the 36 characters of the
    8-4-4-4-12 form. *)
Lemma uuid_String_length (rnd : list Z) :
  String.length (uuid_String (uuid_New rnd)) = 36%nat.
Proof.
  pose proof (uuid_New_bytes rnd) as B. pose proof (uuid_New_length rnd) as L.
  unfold uuid_String. rewrite !length_append.
  rewrite !hex_Encode_length by (apply slice_bytes; exact B).
  rewrite !slice_length by lia. reflexivity.
Qed.

Lemma uuid_String_nonempty (u : UUID) : uuid_String u <> "".
Proof.
  intros H. apply (f_equal String.length) in H. unfold uuid_String in H.
  rewrite !length_append in H. cbn [String.length] in H. lia.
Qed.

(* ------------------------------------------------------------------ *)
(** ** Decoding *)

Section IngressFacts.

Context {lib : Library}.

Lemma object_app (ms1 ms2 : list (string * json)) :
  forall tx,
    object (ms1 ++ ms2) tx
    = match object ms1 tx with
      | Some tx' => object ms2 tx'
      | None => None
      end.
Proof.
  induction ms1 as [|[k v] ms1 IH]; intros tx; cbn [object app]; [reflexivity |].
  destruct (lookupField k) as [f|]; [| apply IH].
  destruct (setField f v tx); [apply IH | reflexivity].
Qed.

Lemma setField_other_ItemList (f : Field) (v : json) (tx tx' : Transaction) :
  f <> FItemList -> setField f v tx = Some tx' -> ItemList tx' = ItemList tx.
Proof.
  intros Hf H. destruct f; try congruence; cbn [setField] in H;
    match type of H with
    | option_map _ ?o = _ => destruct o; [injection H as <-; reflexivity | discriminate]
    end.
Qed.

Lemma setField_other_ShipTo (f : Field) (v : json) (tx tx' : Transaction) :
  f <> FShipTo -> setField f v tx = Some tx' -> ShipTo tx' = ShipTo tx.
Proof.
  intros Hf H. destruct f; try congruence; cbn [setField] in H;
    match type of H with
    | option_map _ ?o = _ => destruct o; [injection H as <-; reflexivity | discriminate]
    end.
Qed.

(** Members that do not select a field leave it as it was. *)
Lemma object_keeps_ItemList (ms : list (string * json)) :
  (forall k v, In (k, v) ms -> lookupField k <> Some FItemList) ->
  forall tx tx', object ms tx = Some tx' -> ItemList tx' = ItemList tx.
Proof.
  induction ms as [|[k v] ms IH]; intros Hms tx tx' H; cbn [object] in H.
  - now injection H as <-.
  - assert (Hk : lookupField k <> Some FItemList) by (apply (Hms k v); now left).
    assert (Hrest : forall k' v', In (k', v') ms -> lookupField k' <> Some FItemList)
      by (intros k' v' Hin; apply (Hms k' v'); now right).
    destruct (lookupField k) as [f|]; [| now apply IH].
    destruct (setField f v tx) as [tx1|] eqn:E; [| discriminate].
    rewrite (IH Hrest tx1 tx' H).
    apply (setField_other_ItemList f v); [congruence | exact E].
Qed.

Lemma object_keeps_ShipTo (ms : list (string * json)) :
  (forall k v, In (k, v) ms -> lookupField k <> Some FShipTo) ->
  forall tx tx', object ms tx = Some tx' -> ShipTo tx' = ShipTo tx.
Proof.
  induction ms as [|[k v] ms IH]; intros Hms tx tx' H; cbn [object] in H.
  - now injection H as <-.
  - assert (Hk : lookupField k <> Some FShipTo) by (apply (Hms k v); now left).
    assert (Hrest : forall k' v', In (k', v') ms -> lookupField k' <> Some FShipTo)
      by (intros k' v' Hin; apply (Hms k' v'); now right).
    destruct (lookupField k) as [f|]; [| now apply IH].
    destruct (setField f v tx) as [tx1|] eqn:E; [| discriminate].
    rewrite (IH Hrest tx1 tx' H).
    apply (setField_other_ShipTo f v); [congruence | exact E].
Qed.

(** The last member that selects [ItemList], when it is a string, is the
    decoded payload. *)
Lemma object_last_ItemList (ms1 ms2 : list (string * json)) (k p : string) :
  lookupField k = Some FItemList ->
  (forall k' v', In (k', v') ms2 -> lookupField k' <> Some FItemList) ->
  forall tx tx',
    object (ms1 ++ (k, JString p) :: ms2) tx = Some tx' -> ItemList tx' = p.
Proof.
  intros Hk Hms2 tx tx' H. rewrite object_app in H.
  destruct (object ms1 tx) as [tx1|]; [| discriminate].
  cbn [object] in H. rewrite Hk in H. cbn in H.
  now rewrite (object_keeps_ItemList ms2 Hms2 _ _ H).
Qed.

(* ------------------------------------------------------------------ *)
(** ** The storage write *)

Lemma db_Create_inr (e : Env) (t : Transaction) (rows rows' : list Transaction) :
  db_Create e t rows = inr rows' ->
  createErr e = None /\ ~ In (ID t) (map ID rows) /\ rows' = rows ++ [t].
Proof.
  unfold db_Create. destruct (createErr e); [discriminate |].
  destruct (existsb _ _) eqn:E; [discriminate |].
  intros H. injection H as <-. repeat split. intros Hin.
  assert (X : existsb (String.eqb (ID t)) (map ID rows) = true)
    by (apply existsb_exists; exists (ID t); split; [exact Hin | apply String.eqb_refl]).
  congruence.
Qed.

Lemma db_Create_fresh (e : Env) (t : Transaction) (rows : list Transaction) :
  createErr e = None ->
  ~ In (ID t) (map ID rows) ->
  db_Create e t rows = inr (rows ++ [t]).
Proof.
  intros He Hn. unfold db_Create. rewrite He.
  destruct (existsb _ _) eqn:E; [| reflexivity].
  apply existsb_exists in E as (x & Hin & Hx).
  apply String.eqb_eq in Hx. subst x. contradiction.
Qed.

(* ------------------------------------------------------------------ *)
(** ** The four ways out of the ingress handler *)

Lemma inbound_malformed (e : Env) (b : Body) (s : State) :
  Decode b = None ->
  inboundHandler e b s
  = (inboundCounter_Inc s, mkResponse StatusBadRequest ("Invalid JSON" ++ nl)).
Proof. intros H. unfold inboundHandler. now rewrite H. Qed.

Lemma inbound_storage_failure (e : Env) (b : Body) (s : State)
      (tx : Transaction) (err : string) :
  Decode b = Some tx ->
  db_Create e (stamp e tx) (db s) = inl err ->
  inboundHandler e b s
  = (log_Printf ("ERROR: " ++ err ++ nl)
                (gorm_logger (createTrace e) (inboundCounter_Inc s)),
     mkResponse StatusInternalServerError ("Failed to save transaction" ++ nl)).
Proof.
  intros Hd Hc. unfold inboundHandler. rewrite Hd. cbv zeta.
  change (db (gorm_logger (createTrace e) (inboundCounter_Inc s))) with (db s).
  now rewrite Hc.
Qed.

Lemma inbound_publish_failure (e : Env) (b : Body) (s : State)
      (tx : Transaction) (rows : list Transaction) (err : string) :
  Decode b = Some tx ->
  db_Create e (stamp e tx) (db s) = inr rows ->
  publishErr e = Some err ->
  inboundHandler e b s
  = (mkState rows (kafkaCalls s ++ [json_Marshal (stamp e tx)]) (topic s)
             (inboundCounter s + 1)%N (outboundCounter s)
             (logged s ++ [("Kafka publish error: " ++ err ++ nl)%string])
             ((printed s ++ createTrace e)
              ++ map (append (ErrorLogger kafkaWriter)) (publishTrace e)),
     mkResponse StatusInternalServerError ("Failed to publish to Kafka" ++ nl)).
Proof.
  intros Hd Hc Hp. unfold inboundHandler. rewrite Hd. cbv zeta.
  change (db (gorm_logger (createTrace e) (inboundCounter_Inc s))) with (db s).
  rewrite Hc. unfold kafka_WriteMessages. now rewrite Hp.
Qed.

Lemma inbound_processed (e : Env) (b : Body) (s : State)
      (tx : Transaction) (rows : list Transaction) :
  Decode b = Some tx ->
  db_Create e (stamp e tx) (db s) = inr rows ->
  publishErr e = None ->
  inboundHandler e b s
  = (mkState rows (kafkaCalls s ++ [json_Marshal (stamp e tx)])
             (topic s ++ [json_Marshal (stamp e tx)])
             (inboundCounter s + 1)%N (outboundCounter s) (logged s)
             ((printed s ++ createTrace e)
              ++ map (append (ErrorLogger kafkaWriter)) (publishTrace e)),
     mkResponse StatusOK
                ("Inbound transaction processed: " ++ plus_v (stamp e tx) ++ nl)).
Proof.
  intros Hd Hc Hp. unfold inboundHandler. rewrite Hd. cbv zeta.
  change (db (gorm_logger (createTrace e) (inboundCounter_Inc s))) with (db s).
  rewrite Hc. unfold kafka_WriteMessages. now rewrite Hp.
Qed.

(** A 200 from the ingress handler means the body decoded, the row was
    written and the event was published. *)
Lemma inbound_ok_inv (e : Env) (b : Body) (s : State) :
  status (snd (inboundHandler e b s)) = StatusOK ->
  exists tx,
    Decode b = Some tx
    /\ db_Create e (stamp e tx) (db s) = inr (db s ++ [stamp e tx])
    /\ publishErr e = None.
Proof.
  intros H. destruct (Decode b) as [tx|] eqn:Hd.
  - destruct (db_Create e (stamp e tx) (db s)) as [err|rows] eqn:Hc.
    + rewrite (inbound_storage_failure e b s tx err Hd Hc) in H. discriminate.
    + destruct (publishErr e) as [err|] eqn:Hp.
      * rewrite (inbound_publish_failure e b s tx rows err Hd Hc Hp) in H.
        discriminate.
      * exists tx. destruct (db_Create_inr _ _ _ _ Hc) as (_ & _ & ->). auto.
  - rewrite (inbound_malformed e b s Hd) in H. discriminate.
Qed.

(* ------------------------------------------------------------------ *)
(** ** The table only grows *)

Lemma inbound_db_grows (e : Env) (b : Body) (s : State) :
  exists more, db (fst (inboundHandler e b s)) = db s ++ more.
Proof.
  destruct (Decode b) as [tx|] eqn:Hd.
  - destruct (db_Create e (stamp e tx) (db s)) as [err|rows] eqn:Hc.
    + rewrite (inbound_storage_failure e b s tx err Hd Hc).
      exists []. simpl. now rewrite app_nil_r.
    + destruct (db_Create_inr _ _ _ _ Hc) as (_ & _ & ->).
      exists [stamp e tx].
      destruct (publishErr e) as [err|] eqn:Hp.
      * now rewrite (inbound_publish_failure e b s tx _ err Hd Hc Hp).
      * now rewrite (inbound_processed e b s tx _ Hd Hc Hp).
  - rewrite (inbound_malformed e b s Hd). exists []. simpl. now rewrite app_nil_r.
Qed.

Lemma serve_db_grows (r : Request) (s : State) :
  exists more, db (fst (serve r s)) = db s ++ more.
Proof.
  unfold serve. destruct (route (method r) (path r)).
  - apply inbound_db_grows.
  - exists []. unfold outboundHandler.
    destruct (db_Find _ _); simpl; now rewrite app_nil_r.
  - exists []. simpl. now rewrite app_nil_r.
  - exists []. simpl. now rewrite app_nil_r.
  - exists []. simpl. now rewrite app_nil_r.
  - exists []. simpl. now rewrite app_nil_r.
Qed.

Lemma run_db_grows (rs : list Request) :
  forall s, exists more, db (run rs s) = db s ++ more.
Proof.
  induction rs as [|r rs IH]; intros s; cbn [run].
  - exists []. now rewrite app_nil_r.
  - destruct (serve_db_grows r s) as (m1 & H1).
    destruct (IH (fst (serve r s))) as (m2 & H2).
    exists (m1 ++ m2). now rewrite H2, H1, app_assoc.
Qed.

Lemma run_keeps_rows (rs : list Request) (s : State) (t : Transaction) :
  In t (db s) -> In t (db (run rs s)).
Proof.
  intros H. destruct (run_db_grows rs s) as (more & ->).
  apply in_or_app. now left.
Qed.


(* ------------------------------------------------------------------ *)
(** ** Identifiers *)

Lemma stamp_fields (e : Env) (tx : Transaction) :
  stamp e tx
  = mkTransaction (uuid_String (uuid_New (randomBytes e))) (clock e)
                  (ShipTo tx) (ItemList tx) "Processed".
Proof. reflexivity. Qed.

(* ------------------------------------------------------------------ *)
(** ** The ingress handler *)

(** C1, as amended: when the body is a JSON object that supplies the item
    payload as a string under the key [items] (the json tag of the
    item-list field; a member [item_list] is not decoded), the body
    decodes and the storage write succeeds, the created record holds that
    string verbatim, and after any further requests a successful egress
    call shows the record's line, of which the string is a literal
    substring. *)
Theorem items_round_trip
        (e : Env) (b : Body) (p : string) (s : State) (tx : Transaction)
        (rows : list Transaction) (rs : list Request) (e' : Env) :
  supplies b "items" p ->
  Decode b = Some tx ->
  db_Create e (stamp e tx) (db s) = inr rows ->
  findErr e' = None ->
  exists t,
    db (fst (inboundHandler e b s)) = db s ++ [t]
    /\ ItemList t = p
    /\ contains p (record_line t)
    /\ contains (record_line t ++ nl ++ nl)
                (body (snd (outboundHandler e' (run rs (fst (inboundHandler e b s)))))).
Proof.
  intros (ms1 & ms2 & -> & Hms2) Hd Hc Hf.
  assert (Hp : ItemList (stamp e tx) = p).
  { cbn [Decode Unmarshal] in Hd.
    apply (object_last_ItemList ms1 ms2 "items" p eq_refl Hms2 _ _ Hd). }
  destruct (db_Create_inr _ _ _ _ Hc) as (_ & _ & ->).
  exists (stamp e tx).
  assert (Hdb : db (fst (inboundHandler e (Value (JObject (ms1 ++ ("items", JString p) :: ms2))) s))
                = db s ++ [stamp e tx]).
  { destruct (publishErr e) as [err|] eqn:Hpub.
    - now rewrite (inbound_publish_failure e _ s tx _ err Hd Hc Hpub).
    - now rewrite (inbound_processed e _ s tx _ Hd Hc Hpub). }
  repeat split; [exact Hdb | exact Hp | |].
  - rewrite <- Hp at 1. apply record_line_shows.
  - rewrite (outboundHandler_ok e' _ Hf). cbn [snd body].
    apply report_contains, reorder_In, run_keeps_rows. rewrite Hdb.
    apply in_or_app. right. now left.
Qed.

(** C2: when the body decodes and the storage write succeeds, the stored
    record carries the identifier generated by the server, which is not
    empty (it has 36 characters) and is not the key of any earlier row,
    the status [Processed]
    and the clock of the server, with the destination and payload of the
    body; whatever the body says of id, date and status has no part in
    it: two bodies with the same destination and payload are handled
    alike. *)
Theorem stored_record_is_server_stamped
        (e : Env) (b : Body) (s : State) (tx : Transaction)
        (rows : list Transaction) :
  Decode b = Some tx ->
  db_Create e (stamp e tx) (db s) = inr rows ->
  exists t,
    db (fst (inboundHandler e b s)) = db s ++ [t]
    /\ ID t = uuid_String (uuid_New (randomBytes e))
    /\ ID t <> ""
    /\ String.length (ID t) = 36%nat
    /\ ~ In (ID t) (map ID (db s))
    /\ Status t = "Processed"
    /\ Date t = clock e
    /\ ShipTo t = ShipTo tx
    /\ ItemList t = ItemList tx
    /\ forall b' tx',
         Decode b' = Some tx' ->
         ShipTo tx' = ShipTo tx ->
         ItemList tx' = ItemList tx ->
         inboundHandler e b' s = inboundHandler e b s.
Proof.
  intros Hd Hc. destruct (db_Create_inr _ _ _ _ Hc) as (_ & Hfresh & ->).
  exists (stamp e tx). repeat split; try reflexivity.
  - destruct (publishErr e) as [err|] eqn:Hpub.
    + now rewrite (inbound_publish_failure e _ s tx _ err Hd Hc Hpub).
    + now rewrite (inbound_processed e _ s tx _ Hd Hc Hpub).
  - apply uuid_String_nonempty.
  - apply uuid_String_length.
  - exact Hfresh.
  - intros b' tx' Hd' Hs Hi. unfold inboundHandler. rewrite Hd, Hd'.
    now rewrite (stamp_fields e tx'), (stamp_fields e tx), Hs, Hi.
Qed.

(** C3: when the body decodes and the storage write fails, the handler
    answers a server error, [WriteMessages] is not called and nothing
    reaches the topic; the table is as it was. *)
Theorem storage_failure_publishes_nothing
        (e : Env) (b : Body) (s : State) (tx : Transaction) (err : string) :
  Decode b = Some tx ->
  db_Create e (stamp e tx) (db s) = inl err ->
  status (snd (inboundHandler e b s)) = StatusInternalServerError
  /\ kafkaCalls (fst (inboundHandler e b s)) = kafkaCalls s
  /\ topic (fst (inboundHandler e b s)) = topic s
  /\ db (fst (inboundHandler e b s)) = db s.
Proof.
  intros Hd Hc. rewrite (inbound_storage_failure e b s tx err Hd Hc).
  repeat split.
Qed.

(** C4: when the storage write succeeds and the publish fails, the
    handler answers a server error, the topic is as it was, and the
    record stays in the table: after any further requests a successful
    egress call still returns its line. *)
Theorem publish_failure_keeps_record
        (e : Env) (b : Body) (s : State) (tx : Transaction)
        (rows : list Transaction) (err : string)
        (rs : list Request) (e' : Env) :
  Decode b = Some tx ->
  db_Create e (stamp e tx) (db s) = inr rows ->
  publishErr e = Some err ->
  findErr e' = None ->
  status (snd (inboundHandler e b s)) = StatusInternalServerError
  /\ db (fst (inboundHandler e b s)) = db s ++ [stamp e tx]
  /\ topic (fst (inboundHandler e b s)) = topic s
  /\ status (snd (outboundHandler e' (run rs (fst (inboundHandler e b s))))) = StatusOK
  /\ contains (record_line (stamp e tx) ++ nl ++ nl)
              (body (snd (outboundHandler e' (run rs (fst (inboundHandler e b s)))))).
Proof.
  intros Hd Hc Hp Hf.
  rewrite (outboundHandler_ok e' _ Hf).
  rewrite (inbound_publish_failure e b s tx rows err Hd Hc Hp).
  destruct (db_Create_inr _ _ _ _ Hc) as (_ & _ & ->).
  repeat split. cbn [snd body].
  apply report_contains, reorder_In, run_keeps_rows. cbn [db].
  apply in_or_app. right. now left.
Qed.

(** C5, as amended: when the body does not decode, the handler answers
    400, creates no record, publishes nothing and logs nothing; its one
    effect is the increment of the inbound counter (no library is
    called, so their loggers print nothing either). *)
Theorem malformed_input_only_counts (e : Env) (b : Body) (s : State) :
  Decode b = None ->
  status (snd (inboundHandler e b s)) = StatusBadRequest
  /\ db (fst (inboundHandler e b s)) = db s
  /\ kafkaCalls (fst (inboundHandler e b s)) = kafkaCalls s
  /\ topic (fst (inboundHandler e b s)) = topic s
  /\ logged (fst (inboundHandler e b s)) = logged s
  /\ outboundCounter (fst (inboundHandler e b s)) = outboundCounter s
  /\ inboundCounter (fst (inboundHandler e b s)) = (inboundCounter s + 1)%N
  /\ printed (fst (inboundHandler e b s)) = printed s.
Proof.
  intros Hd. rewrite (inbound_malformed e b s Hd). repeat split.
Qed.

(** C7: two ingress calls with the same destination and payload that both
    answer 200, with any requests in between, leave two records in the
    table, one after the other, with that destination and payload and
    with different identifiers. *)
Theorem ingress_is_not_idempotent
        (e1 e2 : Env) (b1 b2 : Body) (tx1 tx2 : Transaction)
        (rs : list Request) (s : State) :
  Decode b1 = Some tx1 ->
  Decode b2 = Some tx2 ->
  ShipTo tx1 = ShipTo tx2 ->
  ItemList tx1 = ItemList tx2 ->
  status (snd (inboundHandler e1 b1 s)) = StatusOK ->
  status (snd (inboundHandler e2 b2 (run rs (fst (inboundHandler e1 b1 s))))) = StatusOK ->
  exists t1 t2 between,
    db (fst (inboundHandler e2 b2 (run rs (fst (inboundHandler e1 b1 s)))))
    = db s ++ t1 :: between ++ [t2]
    /\ ID t1 <> ID t2
    /\ ShipTo t1 = ShipTo tx1 /\ ShipTo t2 = ShipTo tx1
    /\ ItemList t1 = ItemList tx1 /\ ItemList t2 = ItemList tx1.
Proof.
  intros Hd1 Hd2 Hs Hi H1 H2.
  destruct (inbound_ok_inv _ _ _ H1) as (x1 & Hx1 & Hc1 & Hp1).
  destruct (inbound_ok_inv _ _ _ H2) as (x2 & Hx2 & Hc2 & Hp2).
  assert (x1 = tx1) by congruence. assert (x2 = tx2) by congruence. subst x1 x2.
  rewrite (inbound_processed e2 b2 _ tx2 _ Hd2 Hc2 Hp2). cbn [fst db].
  destruct (db_Create_inr _ _ _ _ Hc2) as (_ & Hfresh & _).
  destruct (run_db_grows rs (fst (inboundHandler e1 b1 s))) as (between & Hrun).
  rewrite (inbound_processed e1 b1 s tx1 _ Hd1 Hc1 Hp1) in Hrun. cbn [fst db] in Hrun.
  rewrite (inbound_processed e1 b1 s tx1 _ Hd1 Hc1 Hp1) in Hfresh. cbn [fst] in Hfresh.
  rewrite (inbound_processed e1 b1 s tx1 _ Hd1 Hc1 Hp1). cbn [fst].
  exists (stamp e1 tx1), (stamp e2 tx2), between.
  repeat split; try (cbn; congruence).
  - rewrite Hrun. now rewrite <- !app_assoc.
  - intros Heq. apply Hfresh. rewrite Hrun, <- Heq.
    apply in_map, in_or_app. left. apply in_or_app. right. now left.
Qed.

Lemma inbound_counters (e : Env) (b : Body) (s : State) :
  inboundCounter (fst (inboundHandler e b s)) = (inboundCounter s + 1)%N
  /\ outboundCounter (fst (inboundHandler e b s)) = outboundCounter s.
Proof.
  unfold inboundHandler.
  destruct (Decode b) as [tx|]; [| now split].
  destruct (db_Create _ _ _); [now split |].
  unfold kafka_WriteMessages. destruct (publishErr e); now split.
Qed.

Lemma outbound_counters (e : Env) (s : State) :
  outboundCounter (fst (outboundHandler e s)) = (outboundCounter s + 1)%N
  /\ inboundCounter (fst (outboundHandler e s)) = inboundCounter s.
Proof. unfold outboundHandler. destruct (db_Find _ _); now split. Qed.

Lemma serve_counters (r : Request) (s : State) :
  inboundCounter (fst (serve r s))
  = (inboundCounter s + (if toInbound r then 1 else 0))%N
  /\ outboundCounter (fst (serve r s))
     = (outboundCounter s + (if toOutbound r then 1 else 0))%N.
Proof.
  unfold serve, toInbound, toOutbound.
  destruct (route (method r) (path r)); cbn [fst inboundCounter outboundCounter].
  - destruct (inbound_counters (env r) (payload r) s) as [-> ->].
    now rewrite N.add_0_r.
  - destruct (outbound_counters (env r) s) as [-> ->]. now rewrite N.add_0_r.
  - now rewrite !N.add_0_r.
  - now rewrite !N.add_0_r.
  - now rewrite !N.add_0_r.
  - now rewrite !N.add_0_r.
Qed.

(** Over a sequence of requests each counter moves by the number of
    requests routed to its handler. *)
Lemma run_counters (rs : list Request) :
  forall s,
    inboundCounter (run rs s)
    = (inboundCounter s + N.of_nat (List.length (filter toInbound rs)))%N
    /\ outboundCounter (run rs s)
       = (outboundCounter s + N.of_nat (List.length (filter toOutbound rs)))%N.
Proof.
  induction rs as [|r rs IH]; intros s; cbn [run filter].
  - cbn. now rewrite !N.add_0_r.
  - destruct (IH (fst (serve r s))) as [-> ->].
    destruct (serve_counters r s) as [-> ->].
    destruct (toInbound r), (toOutbound r); cbn [List.length]; split; lia.
Qed.

(** C8: every ingress call adds exactly one to the inbound counter,
    whatever the body and the outcome of the storage write and of the
    publish, and leaves the outbound counter; every egress call adds
    exactly one to the outbound counter, whatever the rows and the outcome
    of the read, and leaves the inbound counter; a request routed to
    neither handler changes neither counter. *)
Theorem counters_count_calls :
  (forall e b s,
      inboundCounter (fst (inboundHandler e b s)) = (inboundCounter s + 1)%N
      /\ outboundCounter (fst (inboundHandler e b s)) = outboundCounter s)
  /\ (forall e s,
         outboundCounter (fst (outboundHandler e s)) = (outboundCounter s + 1)%N
         /\ inboundCounter (fst (outboundHandler e s)) = inboundCounter s)
  /\ (forall r s,
         match route (method r) (path r) with
         | RInbound =>
             inboundCounter (fst (serve r s)) = (inboundCounter s + 1)%N
             /\ outboundCounter (fst (serve r s)) = outboundCounter s
         | ROutbound =>
             outboundCounter (fst (serve r s)) = (outboundCounter s + 1)%N
             /\ inboundCounter (fst (serve r s)) = inboundCounter s
         | RMetrics | RMethodNotAllowed | RNotFound | RRedirect =>
             inboundCounter (fst (serve r s)) = inboundCounter s
             /\ outboundCounter (fst (serve r s)) = outboundCounter s
         end).
Proof.
  split; [exact inbound_counters | split; [exact outbound_counters |]].
  intros r s. unfold serve.
  destruct (route (method r) (path r)); cbn [fst];
    [apply inbound_counters | apply outbound_counters | | | |]; now split.
Qed.

(** C10: a JSON object with no member for the destination and none for
    the item payload, the body [{}] among them, is accepted when it
    decodes: with a storage write and a publish that succeed the handler
    answers 200, and the record it created and published has the empty
    string as destination and as item payload. *)
Theorem absent_fields_are_accepted
        (e : Env) (ms : list (string * json)) (s : State) (tx : Transaction) :
  (forall k v, In (k, v) ms ->
               lookupField k <> Some FShipTo /\ lookupField k <> Some FItemList) ->
  Decode (Value (JObject ms)) = Some tx ->
  createErr e = None ->
  ~ In (uuid_String (uuid_New (randomBytes e))) (map ID (db s)) ->
  publishErr e = None ->
  status (snd (inboundHandler e (Value (JObject ms)) s)) = StatusOK
  /\ exists t,
       db (fst (inboundHandler e (Value (JObject ms)) s)) = db s ++ [t]
       /\ topic (fst (inboundHandler e (Value (JObject ms)) s))
          = topic s ++ [json_Marshal t]
       /\ ShipTo t = "" /\ ItemList t = "".
Proof.
  intros Hms Hd He Hfresh Hp.
  assert (Hc : db_Create e (stamp e tx) (db s) = inr (db s ++ [stamp e tx]))
    by (apply db_Create_fresh; [exact He | exact Hfresh]).
  rewrite (inbound_processed e _ s tx _ Hd Hc Hp).
  split; [reflexivity |]. exists (stamp e tx).
  cbn [Decode Unmarshal] in Hd.
  repeat split.
  - cbn [stamp ShipTo].
    apply (object_keeps_ShipTo ms (fun k v H => proj1 (Hms k v H)) _ _ Hd).
  - cbn [stamp ItemList].
    apply (object_keeps_ItemList ms (fun k v H => proj2 (Hms k v H)) _ _ Hd).
Qed.

End IngressFacts.

(* ================================================================== *)
(** * The handlers on the samples *)

Example format_reference_time :
  Format (mkTime 2006 1 2 15 4 5 0 "UTC" 0 None) = layout.
Proof. reflexivity. Qed.

Example uuid_of_zero_bytes :
  uuid_String (uuid_New []) = "00000000-0000-4000-8000-000000000000".
Proof. reflexivity. Qed.

Example clean_double_slash : cleanPath "//inbound" = "/inbound".
Proof. reflexivity. Qed.

Example clean_dot_dot : cleanPath "/metrics/../inbound/." = "/inbound".
Proof. reflexivity. Qed.

Example clean_keeps_trailing_slash : cleanPath "/inbound/" = "/inbound/".
Proof. reflexivity. Qed.

Example clean_empty : cleanPath "" = "/".
Proof. reflexivity. Qed.

Example route_double_slash : route "POST" "//inbound" = RRedirect.
Proof. reflexivity. Qed.

Example route_trailing_slash : route "POST" "/inbound/" = RNotFound.
Proof. reflexivity. Qed.

Example route_inbound : route "POST" "/inbound" = RInbound.
Proof. reflexivity. Qed.

Example reorder_swaps_neighbours : reorder [0%nat; 1%nat] [1; 2; 3] = [2; 3; 1].
Proof. reflexivity. Qed.

Example key_items : lookupField "items" = Some FItemList.
Proof. reflexivity. Qed.

Example key_items_upper : lookupField "ITEMS" = Some FItemList.
Proof. reflexivity. Qed.

Example key_item_list : lookupField "item_list" = None.
Proof. reflexivity. Qed.

Example key_ship_to : lookupField "Ship_To" = Some FShipTo.
Proof. reflexivity. Qed.

Example decode_acmeBody (lib : Library) :
  Decode acmeBody = Some (mkTransaction "" zeroTime "Acme" "" "").
Proof. reflexivity. Qed.

Example decode_itemsBody (lib : Library) :
  Decode itemsBody = Some (mkTransaction "" zeroTime "Acme" acmeItems "").
Proof. reflexivity. Qed.

Example decode_emptyObject (lib : Library) :
  Decode emptyObject = Some zeroTransaction.
Proof. reflexivity. Qed.

Example decode_number_for_string (lib : Library) :
  Decode (Value (JObject [("ship_to", JNumber "7")])) = None.
Proof. reflexivity. Qed.

(** The scenario of the specification, as written there: the record is
    stored with an empty payload and the report does not show the
    payload. *)
Example acmeBody_report (lib : Library) :
  let s1 := fst (inboundHandler quietEnv acmeBody emptyState) in
  status (snd (inboundHandler quietEnv acmeBody emptyState)) = 200
  /\ map ItemList (db s1) = [""]
  /\ body (snd (outboundHandler quietEnv s1))
     = ("EDI 856: Shipment 00000000-0000-4000-8000-000000000000 to Acme"
        ++ " on 2024-05-17 09:30:00 with items: " ++ nl ++ nl)%string
  /\ ~ contains acmeItems (body (snd (outboundHandler quietEnv s1))).
Proof.
  repeat split. apply containsb_false. reflexivity.
Qed.

(* ------------------------------------------------------------------ *)
(** ** C1 *)

Lemma items_round_trip_witness :
  supplies itemsBody "items" acmeItems
  /\ exists t,
       db (fst (inboundHandler (lib := sampleLibrary) quietEnv itemsBody emptyState))
       = db emptyState ++ [t]
       /\ ItemList t = acmeItems
       /\ contains acmeItems (record_line t)
       /\ contains (record_line t ++ nl ++ nl)
            (body (snd (outboundHandler quietEnv
               (run (lib := sampleLibrary)
                    [mkRequest "POST" "/inbound" emptyObject laterEnv]
                    (fst (inboundHandler (lib := sampleLibrary)
                                         quietEnv itemsBody emptyState)))))).
Proof.
  assert (S : supplies itemsBody "items" acmeItems).
  { exists [("ship_to", JString "Acme")], []. split; [reflexivity | intros k v []]. }
  split; [exact S |].
  apply (items_round_trip (lib := sampleLibrary) quietEnv itemsBody acmeItems
           emptyState (mkTransaction "" zeroTime "Acme" acmeItems "")
           [stamp quietEnv (mkTransaction "" zeroTime "Acme" acmeItems "")]
           [mkRequest "POST" "/inbound" emptyObject laterEnv] quietEnv S);
    reflexivity.
Defined.

(** C1, as stated, fails: the payload supplied under the key [item_list]
    of the scenario is not decoded, and the created record's item-list
    field is empty. *)
Lemma item_list_key_is_not_decoded :
  ~ exists lib : Library, round_trip_under lib "item_list".
Proof.
  intros [lib H].
  destruct (H quietEnv acmeBody acmeItems emptyState
              (mkTransaction "" zeroTime "Acme" "" "")
              [stamp quietEnv (mkTransaction "" zeroTime "Acme" "" "")]
              quietEnv) as (t & Hdb & Hit & _); try reflexivity.
  - exists [("ship_to", JString "Acme")], []. split; [reflexivity | intros k v []].
  - vm_compute in Hdb. injection Hdb as <-. discriminate Hit.
Qed.

(* ------------------------------------------------------------------ *)
(** ** C2 *)

Lemma stored_record_is_server_stamped_witness :
  Decode (lib := sampleLibrary) overridingBody
  = Some (mkTransaction "client-1" (mkTime 2020 1 1 0 0 0 0 "UTC" 0 None)
                        "Acme" "A1" "Pending")
  /\ exists t,
       db (fst (inboundHandler (lib := sampleLibrary) quietEnv overridingBody emptyState))
       = db emptyState ++ [t]
       /\ ID t = uuid_String (uuid_New (randomBytes quietEnv))
       /\ ID t <> ""
       /\ String.length (ID t) = 36%nat
       /\ ~ In (ID t) (map ID (db emptyState))
       /\ Status t = "Processed"
       /\ Date t = clock quietEnv
       /\ ShipTo t = "Acme"
       /\ ItemList t = "A1"
       /\ forall b' tx',
            Decode (lib := sampleLibrary) b' = Some tx' ->
            ShipTo tx' = "Acme" ->
            ItemList tx' = "A1" ->
            inboundHandler (lib := sampleLibrary) quietEnv b' emptyState
            = inboundHandler (lib := sampleLibrary) quietEnv overridingBody emptyState.
Proof.
  split; [reflexivity |].
  apply (stored_record_is_server_stamped (lib := sampleLibrary) quietEnv
           overridingBody emptyState
           (mkTransaction "client-1" (mkTime 2020 1 1 0 0 0 0 "UTC" 0 None)
                          "Acme" "A1" "Pending")
           [stamp quietEnv (mkTransaction "client-1"
                              (mkTime 2020 1 1 0 0 0 0 "UTC" 0 None)
                              "Acme" "A1" "Pending")]);
    reflexivity.
Defined.

(* ------------------------------------------------------------------ *)
(** ** C3 *)

Lemma storage_failure_publishes_nothing_witness :
  db_Create refusingEnv
            (stamp refusingEnv (mkTransaction "" zeroTime "Acme" acmeItems ""))
            (db emptyState)
  = inl "connection refused"
  /\ status (snd (inboundHandler (lib := sampleLibrary) refusingEnv itemsBody emptyState))
     = StatusInternalServerError
  /\ kafkaCalls (fst (inboundHandler (lib := sampleLibrary) refusingEnv itemsBody emptyState))
     = kafkaCalls emptyState
  /\ topic (fst (inboundHandler (lib := sampleLibrary) refusingEnv itemsBody emptyState))
     = topic emptyState
  /\ db (fst (inboundHandler (lib := sampleLibrary) refusingEnv itemsBody emptyState))
     = db emptyState.
Proof.
  split; [reflexivity |].
  apply (storage_failure_publishes_nothing (lib := sampleLibrary) refusingEnv
           itemsBody emptyState (mkTransaction "" zeroTime "Acme" acmeItems "")
           "connection refused");
    reflexivity.
Defined.

(* ------------------------------------------------------------------ *)
(** ** C4 *)

Lemma publish_failure_keeps_record_witness :
  publishErr unpublishedEnv = Some "broker unreachable"
  /\ status (snd (inboundHandler (lib := sampleLibrary) unpublishedEnv itemsBody emptyState))
     = StatusInternalServerError
  /\ db (fst (inboundHandler (lib := sampleLibrary) unpublishedEnv itemsBody emptyState))
     = db emptyState
       ++ [stamp unpublishedEnv (mkTransaction "" zeroTime "Acme" acmeItems "")]
  /\ topic (fst (inboundHandler (lib := sampleLibrary) unpublishedEnv itemsBody emptyState))
     = topic emptyState
  /\ status (snd (outboundHandler quietEnv
       (run (lib := sampleLibrary) []
            (fst (inboundHandler (lib := sampleLibrary)
                                 unpublishedEnv itemsBody emptyState)))))
     = StatusOK
  /\ contains
       (record_line (stamp unpublishedEnv (mkTransaction "" zeroTime "Acme" acmeItems ""))
        ++ nl ++ nl)
       (body (snd (outboundHandler quietEnv
          (run (lib := sampleLibrary) []
               (fst (inboundHandler (lib := sampleLibrary)
                                    unpublishedEnv itemsBody emptyState)))))).
Proof.
  split; [reflexivity |].
  apply (publish_failure_keeps_record (lib := sampleLibrary) unpublishedEnv
           itemsBody emptyState (mkTransaction "" zeroTime "Acme" acmeItems "")
           [stamp unpublishedEnv (mkTransaction "" zeroTime "Acme" acmeItems "")]
           "broker unreachable" [] quietEnv);
    reflexivity.
Defined.

(* ------------------------------------------------------------------ *)
(** ** C5 *)

Lemma malformed_input_only_counts_witness :
  Decode (lib := sampleLibrary) NoValue = None
  /\ status (snd (inboundHandler (lib := sampleLibrary) quietEnv NoValue acmeState))
     = StatusBadRequest
  /\ db (fst (inboundHandler (lib := sampleLibrary) quietEnv NoValue acmeState))
     = db acmeState
  /\ kafkaCalls (fst (inboundHandler (lib := sampleLibrary) quietEnv NoValue acmeState))
     = kafkaCalls acmeState
  /\ topic (fst (inboundHandler (lib := sampleLibrary) quietEnv NoValue acmeState))
     = topic acmeState
  /\ logged (fst (inboundHandler (lib := sampleLibrary) quietEnv NoValue acmeState))
     = logged acmeState
  /\ outboundCounter (fst (inboundHandler (lib := sampleLibrary) quietEnv NoValue acmeState))
     = outboundCounter acmeState
  /\ inboundCounter (fst (inboundHandler (lib := sampleLibrary) quietEnv NoValue acmeState))
     = (inboundCounter acmeState + 1)%N
  /\ printed (fst (inboundHandler (lib := sampleLibrary) quietEnv NoValue acmeState))
     = printed acmeState.
Proof.
  split; [reflexivity |].
  apply (malformed_input_only_counts (lib := sampleLibrary) quietEnv NoValue acmeState).
  reflexivity.
Defined.

(** C5, as stated, fails: a body that does not decode still moves the
    inbound counter, so the state after the request is not the state
    before it. *)
Lemma malformed_input_moves_the_counter :
  ~ exists lib : Library, malformed_input_is_inert lib.
Proof.
  intros [lib H]. destruct (H quietEnv NoValue emptyState eq_refl) as [_ Hs].
  vm_compute in Hs. discriminate Hs.
Qed.

(* ------------------------------------------------------------------ *)
(** ** C7 *)

Lemma ingress_is_not_idempotent_witness :
  exists t1 t2 between,
    db (fst (inboundHandler (lib := sampleLibrary) laterEnv itemsBody
              (run (lib := sampleLibrary)
                   [mkRequest "GET" "/outbound" NoValue quietEnv]
                   (fst (inboundHandler (lib := sampleLibrary)
                                        quietEnv itemsBody emptyState)))))
    = db emptyState ++ t1 :: between ++ [t2]
    /\ ID t1 <> ID t2
    /\ ShipTo t1 = "Acme" /\ ShipTo t2 = "Acme"
    /\ ItemList t1 = acmeItems /\ ItemList t2 = acmeItems.
Proof.
  apply (ingress_is_not_idempotent (lib := sampleLibrary) quietEnv laterEnv
           itemsBody itemsBody
           (mkTransaction "" zeroTime "Acme" acmeItems "")
           (mkTransaction "" zeroTime "Acme" acmeItems "")
           [mkRequest "GET" "/outbound" NoValue quietEnv] emptyState);
    reflexivity.
Defined.

(* ------------------------------------------------------------------ *)
(** ** C10 *)

Lemma absent_fields_are_accepted_witness :
  Decode (lib := sampleLibrary) emptyObject = Some zeroTransaction
  /\ status (snd (inboundHandler (lib := sampleLibrary) quietEnv emptyObject emptyState))
     = StatusOK
  /\ exists t,
       db (fst (inboundHandler (lib := sampleLibrary) quietEnv emptyObject emptyState))
       = db emptyState ++ [t]
       /\ topic (fst (inboundHandler (lib := sampleLibrary) quietEnv emptyObject emptyState))
          = topic emptyState ++ [json_Marshal (Library := sampleLibrary) t]
       /\ ShipTo t = "" /\ ItemList t = "".
Proof.
  split; [reflexivity |].
  apply (absent_fields_are_accepted (lib := sampleLibrary) quietEnv [] emptyState
           zeroTransaction).
  - intros k v [].
  - reflexivity.
  - reflexivity.
  - intros [].
  - reflexivity.
Defined.

(* ================================================================== *)
(** * Further properties of the handlers *)

(** ** Egress *)

Lemma report_app (rows1 rows2 : list Transaction) :
  report (rows1 ++ rows2) = (report rows1 ++ report rows2)%string.
Proof.
  induction rows1 as [|t rows1 IH]; [reflexivity |].
  cbn [app report]. now rewrite IH, !append_assoc.
Qed.

Lemma outbound_state (e : Env) (s : State) :
  fst (outboundHandler e s) = gorm_logger (findTrace e) (outboundCounter_Inc s).
Proof. unfold outboundHandler. cbv zeta. now destruct (db_Find e _). Qed.

(** X1: the egress handler only reads: whatever the outcome of the read,
    it leaves the rows, the topic, the calls of the writer and the
    inbound counter as they were and gives no line to [log.Printf]; beside
    the response and its counter, its one output is what gorm's own
    logger prints during the read.  So an egress call answers the same
    after another egress call as without it. *)
Theorem egress_only_reads (e1 e2 : Env) (s : State) :
  db (fst (outboundHandler e1 s)) = db s
  /\ topic (fst (outboundHandler e1 s)) = topic s
  /\ kafkaCalls (fst (outboundHandler e1 s)) = kafkaCalls s
  /\ logged (fst (outboundHandler e1 s)) = logged s
  /\ inboundCounter (fst (outboundHandler e1 s)) = inboundCounter s
  /\ printed (fst (outboundHandler e1 s)) = printed s ++ findTrace e1
  /\ snd (outboundHandler e2 (fst (outboundHandler e1 s)))
     = snd (outboundHandler e2 s).
Proof.
  rewrite outbound_state. repeat split.
  unfold outboundHandler. cbv zeta. cbn [db outboundCounter_Inc gorm_logger].
  now destruct (db_Find e2 (db s)).
Qed.

(** X2: when the read of the table fails, the egress handler answers 500
    with the fixed text and nothing else: no line of any row is written
    and the error of the storage is not sent to the client.  The handler
    gives nothing to [log.Printf] on this path: the error shows only in
    what gorm's own logger prints. *)
Theorem egress_read_failure (e : Env) (s : State) (err : string) :
  findErr e = Some err ->
  snd (outboundHandler e s)
  = mkResponse 500 ("Failed to fetch transactions" ++ nl)
  /\ logged (fst (outboundHandler e s)) = logged s
  /\ printed (fst (outboundHandler e s)) = printed s ++ findTrace e
  /\ forall s', snd (outboundHandler e s') = snd (outboundHandler e s).
Proof.
  intros H. rewrite (outboundHandler_err e s err H). repeat split.
  intros s'. now rewrite (outboundHandler_err e s' err H).
Qed.

(* ------------------------------------------------------------------ *)
(** ** The text of an identifier *)

Lemma get_past (a b : string) (n : nat) :
  String.get (String.length a + n) (a ++ b) = String.get n b.
Proof. induction a as [|c a IH]; [reflexivity | exact IH]. Qed.

Lemma land_ones_bound (b n : Z) :
  0 <= n -> 0 <= Z.land b (Z.ones n) < 2 ^ n.
Proof.
  intros Hn. rewrite Z.land_ones by lia.
  apply Z.mod_pos_bound, Z.pow_pos_nonneg; lia.
Qed.

Lemma version_nibble (b : Z) : Z.shiftr (Z.lor (Z.land b 15) 64) 4 = 4.
Proof.
  apply Z.eqb_eq.
  apply (below_cases 16 (fun x => Z.shiftr (Z.lor x 64) 4 =? 4)); [reflexivity |].
  exact (land_ones_bound b 4 ltac:(lia)).
Qed.

Lemma variant_nibble (b : Z) :
  exists c, hexdigit (Z.shiftr (Z.lor (Z.land b 63) 128) 4) = String c ""
            /\ variant_digit c = true.
Proof.
  pose (P := fun x => match hexdigit (Z.shiftr (Z.lor x 128) 4) with
                      | String c EmptyString => variant_digit c
                      | _ => false
                      end).
  assert (H : P (Z.land b 63) = true).
  { apply (below_cases 64 P); [reflexivity |].
    exact (land_ones_bound b 6 ltac:(lia)). }
  unfold P in H.
  destruct (hexdigit _) as [|c [|]]; try discriminate. now exists c.
Qed.

(** X3: the text of a generated identifier is a version 4 UUID in the
    8-4-4-4-12 form: 36 characters, hyphens at positions 8, 13, 18 and
    23, the digit 4 at position 14, and one of 8, 9, a, b at position
    19, whatever bytes the random source gave. *)
Theorem generated_id_is_version_4 (rnd : list Z) :
  let id := uuid_String (uuid_New rnd) in
  String.length id = 36%nat
  /\ String.get 8 id = Some "-"%char
  /\ String.get 13 id = Some "-"%char
  /\ String.get 18 id = Some "-"%char
  /\ String.get 23 id = Some "-"%char
  /\ String.get 14 id = Some "4"%char
  /\ exists c, String.get 19 id = Some c /\ variant_digit c = true.
Proof.
  cbv zeta. pose proof (uuid_New_bytes rnd) as B.
  pose proof (uuid_New_length rnd) as L.
  assert (L1 : String.length (hex_Encode (slice (uuid_New rnd) 0 4)) = 8%nat)
    by (rewrite hex_Encode_length, slice_length by (try apply slice_bytes; trivial; lia); reflexivity).
  assert (L2 : String.length (hex_Encode (slice (uuid_New rnd) 4 6)) = 4%nat)
    by (rewrite hex_Encode_length, slice_length by (try apply slice_bytes; trivial; lia); reflexivity).
  assert (L3 : String.length (hex_Encode (slice (uuid_New rnd) 6 8)) = 4%nat)
    by (rewrite hex_Encode_length, slice_length by (try apply slice_bytes; trivial; lia); reflexivity).
  assert (L4 : String.length (hex_Encode (slice (uuid_New rnd) 8 10)) = 4%nat)
    by (rewrite hex_Encode_length, slice_length by (try apply slice_bytes; trivial; lia); reflexivity).
  split; [apply uuid_String_length |].
  unfold uuid_String.
  set (A := hex_Encode (slice (uuid_New rnd) 0 4)) in *.
  set (B4 := hex_Encode (slice (uuid_New rnd) 4 6)) in *.
  set (C := hex_Encode (slice (uuid_New rnd) 6 8)) in *.
  set (D := hex_Encode (slice (uuid_New rnd) 8 10)) in *.
  set (E := hex_Encode (slice (uuid_New rnd) 10 16)) in *.
  assert (G1 : forall n rest, String.get (8 + n) (A ++ rest) = String.get n rest)
    by (intros; rewrite <- L1; apply get_past).
  assert (G2 : forall n rest, String.get (4 + n) (B4 ++ rest) = String.get n rest)
    by (intros; rewrite <- L2; apply get_past).
  assert (G3 : forall n rest, String.get (4 + n) (C ++ rest) = String.get n rest)
    by (intros; rewrite <- L3; apply get_past).
  assert (G4 : forall n rest, String.get (4 + n) (D ++ rest) = String.get n rest)
    by (intros; rewrite <- L4; apply get_past).
  repeat split.
  - now rewrite (G1 0%nat).
  - rewrite (G1 5%nat). cbn [String.get append]. now rewrite (G2 0%nat).
  - rewrite (G1 10%nat). cbn [String.get append]. rewrite (G2 5%nat).
    cbn [String.get append]. now rewrite (G3 0%nat).
  - rewrite (G1 15%nat). cbn [String.get append]. rewrite (G2 10%nat).
    cbn [String.get append]. rewrite (G3 5%nat).
    cbn [String.get append]. now rewrite (G4 0%nat).
  - rewrite (G1 6%nat). cbn [String.get append]. rewrite (G2 1%nat).
    cbn [String.get append]. subst C.
    unfold uuid_New. cbn [seq map slice skipn firstn Nat.sub Nat.eqb hex_Encode].
    now rewrite version_nibble.
  - rewrite (G1 11%nat). cbn [String.get append]. rewrite (G2 6%nat).
    cbn [String.get append]. rewrite (G3 1%nat). cbn [String.get append].
    subst D. unfold uuid_New.
    cbn [seq map slice skipn firstn Nat.sub Nat.eqb hex_Encode].
    destruct (variant_nibble (byte_at rnd 8)) as (c & -> & Hc).
    exists c. now split.
Qed.

(* ------------------------------------------------------------------ *)
(** ** Ingress *)

Section MoreIngressFacts.

Context {lib : Library}.

(** The four ways out of [inboundHandler e b s], each with the result of
    the handler rewritten in the goal. *)
Ltac ingress_cases e b s :=
  let tx := fresh "tx" in
  let err := fresh "err" in
  let rows := fresh "rows" in
  let Hd := fresh "Hd" in
  let Hc := fresh "Hc" in
  let Hp := fresh "Hp" in
  destruct (Decode b) as [tx|] eqn:Hd;
  [ destruct (db_Create e (stamp e tx) (db s)) as [err|rows] eqn:Hc;
    [ rewrite (inbound_storage_failure e b s tx err Hd Hc)
    | destruct (publishErr e) as [err|] eqn:Hp;
      [ rewrite (inbound_publish_failure e b s tx rows err Hd Hc Hp)
      | rewrite (inbound_processed e b s tx rows Hd Hc Hp) ];
      destruct (db_Create_inr _ _ _ _ Hc) as (_ & ? & ->) ]
  | rewrite (inbound_malformed e b s Hd) ].

Lemma stamp_server_made (e : Env) (tx : Transaction) : server_made (stamp e tx).
Proof. split; [reflexivity | apply uuid_String_length]. Qed.

Lemma plus_v_shows (t : Transaction) :
  contains (ID t) (plus_v t) /\ contains (ShipTo t) (plus_v t)
  /\ contains (ItemList t) (plus_v t) /\ contains (Status t) (plus_v t).
Proof.
  unfold plus_v. repeat split.
  - apply contains_app_r, contains_app_l, contains_refl.
  - do 5 apply contains_app_r. apply contains_app_l, contains_refl.
  - do 7 apply contains_app_r. apply contains_app_l, contains_refl.
  - do 9 apply contains_app_r. apply contains_app_l, contains_refl.
Qed.


(** X5: the body of a 200 from the ingress handler is one line, the
    fixed words followed by the stored record under [%+v]; it shows the
    record's identifier, destination and item payload, and the status
    [Processed]. *)
Theorem confirmation_shows_the_record (e : Env) (b : Body) (s : State) :
  status (snd (inboundHandler e b s)) = StatusOK ->
  exists t,
    db (fst (inboundHandler e b s)) = db s ++ [t]
    /\ body (snd (inboundHandler e b s))
       = ("Inbound transaction processed: " ++ plus_v t ++ nl)%string
    /\ contains (ID t) (body (snd (inboundHandler e b s)))
    /\ contains (ShipTo t) (body (snd (inboundHandler e b s)))
    /\ contains (ItemList t) (body (snd (inboundHandler e b s)))
    /\ contains "Status:Processed" (body (snd (inboundHandler e b s))).
Proof.
  intros H. destruct (inbound_ok_inv e b s H) as (tx & Hd & Hc & Hp).
  rewrite (inbound_processed e b s tx _ Hd Hc Hp).
  exists (stamp e tx). cbn [fst snd db body].
  destruct (plus_v_shows (stamp e tx)) as (H1 & H2 & H3 & _).
  repeat split.
  - apply contains_app_r, contains_app_l, H1.
  - apply contains_app_r, contains_app_l, H2.
  - apply contains_app_r, contains_app_l, H3.
  - apply contains_app_r, contains_app_l. unfold plus_v.
    do 8 apply contains_app_r. now exists " ", "}".
Qed.

(** X6: the ingress handler answers 200, 400 or 500 and nothing else;
    it gives exactly one line to [log.Printf] when it answers 500 and
    none otherwise.  This counts the handler's own lines: beside them
    gorm's logger and the writer's [ErrorLogger] print what they print
    during the storage and stream calls, and nothing when the handler
    answers 400, where neither is called. *)
Theorem ingress_logs_on_server_error (e : Env) (b : Body) (s : State) :
  ((status (snd (inboundHandler e b s)) = 500
    /\ exists line, logged (fst (inboundHandler e b s)) = logged s ++ [line])
   \/ ((status (snd (inboundHandler e b s)) = 200
        \/ status (snd (inboundHandler e b s)) = 400)
       /\ logged (fst (inboundHandler e b s)) = logged s))
  /\ exists out,
       printed (fst (inboundHandler e b s)) = printed s ++ out
       /\ (status (snd (inboundHandler e b s)) = 400 -> out = []).
Proof.
  ingress_cases e b s;
    cbn [fst snd status logged printed log_Printf gorm_logger inboundCounter_Inc].
  - split; [left; split; [reflexivity | eauto] |].
    exists (createTrace e). split; [reflexivity | discriminate].
  - split; [left; split; [reflexivity | eauto] |].
    exists (createTrace e ++ map (append (ErrorLogger kafkaWriter)) (publishTrace e)).
    split; [now rewrite app_assoc | discriminate].
  - split; [right; split; [now left | reflexivity] |].
    exists (createTrace e ++ map (append (ErrorLogger kafkaWriter)) (publishTrace e)).
    split; [now rewrite app_assoc | discriminate].
  - split; [right; split; [now right | reflexivity] |].
    exists []. split; [now rewrite app_nil_r | reflexivity].
Qed.

(** X7: [WriteMessages] is called exactly when a row was written, once,
    with the event of that row; a message reaches the topic only through
    such a call. *)
Theorem publish_follows_store (e : Env) (b : Body) (s : State) :
  (db (fst (inboundHandler e b s)) = db s
   /\ kafkaCalls (fst (inboundHandler e b s)) = kafkaCalls s
   /\ topic (fst (inboundHandler e b s)) = topic s)
  \/ exists t,
       db (fst (inboundHandler e b s)) = db s ++ [t]
       /\ kafkaCalls (fst (inboundHandler e b s)) = kafkaCalls s ++ [json_Marshal t]
       /\ (topic (fst (inboundHandler e b s)) = topic s
           \/ topic (fst (inboundHandler e b s)) = topic s ++ [json_Marshal t]).
Proof.
  ingress_cases e b s; cbn [fst db kafkaCalls topic log_Printf inboundCounter_Inc].
  - now left.
  - right. exists (stamp e tx). repeat split. now left.
  - right. exists (stamp e tx). repeat split. now right.
  - now left.
Qed.

(* ------------------------------------------------------------------ *)
(** ** Decoding, seen from the handler *)

Lemma same_decoding (e : Env) (b1 b2 : Body) (s : State) :
  Decode b1 = Decode b2 -> inboundHandler e b1 s = inboundHandler e b2 s.
Proof. intros H. unfold inboundHandler. now rewrite H. Qed.

Lemma setField_refuses (f : Field) (v : json) (tx : Transaction) :
  is_string_field f = true -> refused_by_string v = true ->
  setField f v tx = None.
Proof. destruct f, v; intros Hf Hv; try discriminate; reflexivity. Qed.

Lemma object_refuses (ms : list (string * json)) (k : string) (v : json) (f : Field) :
  In (k, v) ms ->
  lookupField k = Some f ->
  (forall tx, setField f v tx = None) ->
  forall tx, object ms tx = None.
Proof.
  intros Hin Hk Hf. induction ms as [|[k0 v0] ms IH]; intros tx; [destruct Hin |].
  cbn [object]. destruct Hin as [Heq | Hin].
  - injection Heq as -> ->. now rewrite Hk, Hf.
  - destruct (lookupField k0) as [f0|]; [| now apply IH].
    destruct (setField f0 v0 tx); [now apply IH | reflexivity].
Qed.

Lemma setField_null (f : Field) (tx : Transaction) :
  setField f JNull tx = Some tx.
Proof. destruct f, tx; reflexivity. Qed.

Lemma object_last_ShipTo (ms1 ms2 : list (string * json)) (k p : string) :
  lookupField k = Some FShipTo ->
  (forall k' v', In (k', v') ms2 -> lookupField k' <> Some FShipTo) ->
  forall tx tx',
    object (ms1 ++ (k, JString p) :: ms2) tx = Some tx' -> ShipTo tx' = p.
Proof.
  intros Hk Hms2 tx tx' H. rewrite object_app in H.
  destruct (object ms1 tx) as [tx1|]; [| discriminate].
  cbn [object] in H. rewrite Hk in H. cbn in H.
  now rewrite (object_keeps_ShipTo ms2 Hms2 _ _ H).
Qed.

(** X8: an object with a member for the identifier, destination, payload
    or status whose value is a number, a boolean, an array or an object
    is refused: the handler answers 400 and creates, publishes and logs
    nothing, wherever the member stands and whatever the other members
    are. *)
Theorem wrong_type_is_refused
        (e : Env) (ms : list (string * json)) (s : State)
        (k : string) (v : json) (f : Field) :
  In (k, v) ms ->
  lookupField k = Some f ->
  is_string_field f = true ->
  refused_by_string v = true ->
  inboundHandler e (Value (JObject ms)) s
  = (inboundCounter_Inc s, mkResponse 400 ("Invalid JSON" ++ nl)).
Proof.
  intros Hin Hk Hf Hv. apply inbound_malformed. cbn [Decode Unmarshal].
  apply (object_refuses ms k v f Hin Hk).
  intros tx. now apply setField_refuses.
Qed.

(** X9: a member whose key selects no field is ignored, whatever its
    value and wherever it stands: the handler does with the body what it
    does with the body without that member. *)
Theorem unknown_member_is_ignored
        (e : Env) (ms1 ms2 : list (string * json)) (k : string) (v : json)
        (s : State) :
  lookupField k = None ->
  inboundHandler e (Value (JObject (ms1 ++ (k, v) :: ms2))) s
  = inboundHandler e (Value (JObject (ms1 ++ ms2))) s.
Proof.
  intros Hk. apply same_decoding. cbn [Decode Unmarshal].
  rewrite !object_app. destruct (object ms1 zeroTransaction); [| reflexivity].
  cbn [object]. now rewrite Hk.
Qed.

(** X10: a member whose value is null is as good as absent, for every
    key: the field it selects keeps what it held. *)
Theorem null_member_is_absent
        (e : Env) (ms1 ms2 : list (string * json)) (k : string) (s : State) :
  inboundHandler e (Value (JObject (ms1 ++ (k, JNull) :: ms2))) s
  = inboundHandler e (Value (JObject (ms1 ++ ms2))) s.
Proof.
  apply same_decoding. cbn [Decode Unmarshal].
  rewrite !object_app. destruct (object ms1 zeroTransaction) as [tx|]; [| reflexivity].
  cbn [object]. destruct (lookupField k) as [f|]; [| reflexivity].
  now rewrite setField_null.
Qed.

(** X11: the destination round-trips like the payload: when the last
    member that selects the destination (the key [ship_to], in any letter
    case) is a string, the body decodes and the storage write succeeds,
    the created record holds that string verbatim and after any further
    requests a successful egress call shows it in the record's line. *)
Theorem ship_to_round_trip
        (e : Env) (ms1 ms2 : list (string * json)) (k p : string) (s : State)
        (tx : Transaction) (rows : list Transaction) (rs : list Request)
        (e' : Env) :
  lookupField k = Some FShipTo ->
  (forall k' v', In (k', v') ms2 -> lookupField k' <> Some FShipTo) ->
  Decode (Value (JObject (ms1 ++ (k, JString p) :: ms2))) = Some tx ->
  db_Create e (stamp e tx) (db s) = inr rows ->
  findErr e' = None ->
  exists t,
    db (fst (inboundHandler e (Value (JObject (ms1 ++ (k, JString p) :: ms2))) s))
    = db s ++ [t]
    /\ ShipTo t = p
    /\ contains p (record_line t)
    /\ contains (record_line t ++ nl ++ nl)
         (body (snd (outboundHandler e'
            (run rs (fst (inboundHandler e
                            (Value (JObject (ms1 ++ (k, JString p) :: ms2))) s)))))).
Proof.
  intros Hk Hms2 Hd Hc Hf.
  set (b := Value (JObject (ms1 ++ (k, JString p) :: ms2))) in *.
  assert (Hp : ShipTo (stamp e tx) = p).
  { cbn [Decode Unmarshal b] in Hd.
    apply (object_last_ShipTo ms1 ms2 k p Hk Hms2 _ _ Hd). }
  destruct (db_Create_inr _ _ _ _ Hc) as (_ & _ & ->).
  assert (Hdb : db (fst (inboundHandler e b s)) = db s ++ [stamp e tx]).
  { destruct (publishErr e) as [err|] eqn:Hpub.
    - now rewrite (inbound_publish_failure e _ s tx _ err Hd Hc Hpub).
    - now rewrite (inbound_processed e _ s tx _ Hd Hc Hpub). }
  exists (stamp e tx). repeat split; [exact Hdb | exact Hp | |].
  - rewrite <- Hp at 1. apply record_line_shows.
  - rewrite (outboundHandler_ok e' _ Hf). cbn [snd body].
    apply report_contains, reorder_In, run_keeps_rows. rewrite Hdb.
    apply in_or_app. right. now left.
Qed.

(* ------------------------------------------------------------------ *)
(** ** Sequences of requests *)

Lemma inbound_appends (e : Env) (b : Body) (s : State) :
  exists more,
    db (fst (inboundHandler e b s)) = db s ++ more
    /\ Forall server_made more
    /\ (List.length more <= 1)%nat.
Proof.
  ingress_cases e b s; cbn [fst db log_Printf inboundCounter_Inc].
  - exists []. rewrite app_nil_r. repeat split; [constructor | cbn; lia].
  - exists [stamp e tx]. repeat split; [| cbn; lia].
    constructor; [apply stamp_server_made | constructor].
  - exists [stamp e tx]. repeat split; [| cbn; lia].
    constructor; [apply stamp_server_made | constructor].
  - exists []. rewrite app_nil_r. repeat split; [constructor | cbn; lia].
Qed.

Lemma serve_appends (r : Request) (s : State) :
  exists more,
    db (fst (serve r s)) = db s ++ more
    /\ Forall server_made more
    /\ (List.length more <= if toInbound r then 1 else 0)%nat.
Proof.
  unfold serve, toInbound. destruct (route (method r) (path r)).
  - apply inbound_appends.
  - rewrite outbound_state. exists []. rewrite app_nil_r.
    repeat split; [constructor | cbn; lia].
  - exists []. rewrite app_nil_r. repeat split; [constructor | cbn; lia].
  - exists []. rewrite app_nil_r. repeat split; [constructor | cbn; lia].
  - exists []. rewrite app_nil_r. repeat split; [constructor | cbn; lia].
  - exists []. rewrite app_nil_r. repeat split; [constructor | cbn; lia].
Qed.

(** X12: the table is append-only: after any sequence of requests it is
    the table before followed by new rows, at most one for each request
    routed to the ingress handler, each with the status [Processed] and an
    identifier of 36 characters; no row is changed, moved or removed. *)
Theorem table_is_append_only (rs : list Request) (s : State) :
  exists more,
    db (run rs s) = db s ++ more
    /\ Forall server_made more
    /\ (List.length more <= List.length (filter toInbound rs))%nat.
Proof.
  revert s. induction rs as [|r rs IH]; intros s; cbn [run filter].
  - exists []. rewrite app_nil_r. repeat split; [constructor | cbn; lia].
  - destruct (serve_appends r s) as (m1 & H1 & F1 & L1).
    destruct (IH (fst (serve r s))) as (m2 & H2 & F2 & L2).
    exists (m1 ++ m2). rewrite H2, H1, app_assoc. repeat split.
    + apply Forall_app. now split.
    + rewrite length_app. destruct (toInbound r); cbn [List.length]; lia.
Qed.

Lemma NoDup_snoc (A : Type) (l : list A) (x : A) :
  NoDup l -> ~ In x l -> NoDup (l ++ [x]).
Proof.
  induction 1 as [|y l Hy Hl IH]; intros Hx; cbn.
  - constructor; [intros [] | constructor].
  - constructor.
    + rewrite in_app_iff. intros [H | [H | []]]; [contradiction | subst].
      apply Hx. now left.
    + apply IH. intros H. apply Hx. now right.
Qed.

Lemma serve_keeps_keys (r : Request) (s : State) :
  NoDup (map ID (db s)) -> NoDup (map ID (db (fst (serve r s)))).
Proof.
  intros H. unfold serve. destruct (route (method r) (path r)); trivial.
  - ingress_cases (env r) (payload r) s;
      cbn [fst db log_Printf inboundCounter_Inc]; trivial;
      rewrite map_app; now apply NoDup_snoc.
  - now rewrite outbound_state.
Qed.

(** X13: the primary key stays a key: when no two rows of the table have
    the same identifier, no two have after any sequence of requests. *)
Theorem primary_key_stays_unique (rs : list Request) (s : State) :
  NoDup (map ID (db s)) -> NoDup (map ID (db (run rs s))).
Proof.
  revert s. induction rs as [|r rs IH]; intros s H; cbn [run]; [exact H |].
  apply IH, serve_keeps_keys, H.
Qed.

Lemma serve_keeps_published (r : Request) (s : State) :
  published_are_stored lib s -> published_are_stored lib (fst (serve r s)).
Proof.
  intros H. unfold serve. destruct (route (method r) (path r)); trivial.
  - unfold published_are_stored.
    ingress_cases (env r) (payload r) s;
      cbn [fst db topic log_Printf inboundCounter_Inc]; trivial.
    + intros m Hm. destruct (H m Hm) as (t & Ht & ->).
      exists t. split; [apply in_or_app; now left | reflexivity].
    + intros m Hm. apply in_app_iff in Hm as [Hm | [<- | []]].
      * destruct (H m Hm) as (t & Ht & ->).
        exists t. split; [apply in_or_app; now left | reflexivity].
      * exists (stamp (env r) tx). split; [| reflexivity].
        apply in_or_app. right. now left.
  - now rewrite outbound_state.
Qed.

(** X14: nothing is on the topic that is not in the table: when every
    message of the topic is the event of a stored row, this still holds
    after any sequence of requests (the converse fails when a publish
    fails). *)
Theorem published_stay_stored (rs : list Request) (s : State) :
  published_are_stored lib s -> published_are_stored lib (run rs s).
Proof.
  revert s. induction rs as [|r rs IH]; intros s H; cbn [run]; [exact H |].
  apply IH, serve_keeps_published, H.
Qed.

(** X15: when [main] gets to serve, both [gorm.Open] and [AutoMigrate]
    succeeded, the rows found at start-up are served, and after any
    sequence of requests each counter is the number of requests routed to
    its handler since the process started. *)
Theorem counters_since_start
        (be : BootEnv) (rows : list Transaction) (onTopic : list string)
        (s0 : State) (rs : list Request) :
  main be rows onTopic = inr s0 ->
  openErr be = None /\ migrateErr be = None
  /\ db s0 = rows
  /\ inboundCounter (run rs s0) = N.of_nat (List.length (filter toInbound rs))
  /\ outboundCounter (run rs s0) = N.of_nat (List.length (filter toOutbound rs)).
Proof.
  unfold main, initDB. intros H.
  destruct (openErr be); [discriminate |].
  destruct (migrateErr be); [discriminate |].
  injection H as <-. destruct (run_counters rs (mkState rows [] onTopic 0 0
                                 ["Server running on port 8086"] (bootTrace be))) as [-> ->].
  repeat split.
Qed.

(** X16: a successful egress call made after an ingress call that stored
    its record reports the records it would have reported before and the
    new one, each once, in the order the read returns them; when the read
    returns the rows in the order they were inserted, the answer is the
    earlier answer followed by the text of the new record and an empty
    line. *)
Theorem egress_after_ingress
        (e : Env) (b : Body) (s : State) (tx : Transaction)
        (rows : list Transaction) (e' : Env) :
  Decode b = Some tx ->
  db_Create e (stamp e tx) (db s) = inr rows ->
  findErr e' = None ->
  exists before after,
    body (snd (outboundHandler e' s)) = report before
    /\ body (snd (outboundHandler e' (fst (inboundHandler e b s)))) = report after
    /\ Permutation after (before ++ [stamp e tx])
    /\ (findOrder e' = [] ->
        body (snd (outboundHandler e' (fst (inboundHandler e b s))))
        = (body (snd (outboundHandler e' s))
           ++ record_line (stamp e tx) ++ nl ++ nl)%string).
Proof.
  intros Hd Hc Hf. rewrite !(outboundHandler_ok e' _ Hf). cbn [snd body].
  assert (Hdb : db (fst (inboundHandler e b s)) = db s ++ [stamp e tx]).
  { destruct (db_Create_inr _ _ _ _ Hc) as (_ & _ & ->).
    destruct (publishErr e) as [err|] eqn:Hpub.
    - now rewrite (inbound_publish_failure e _ s tx _ err Hd Hc Hpub).
    - now rewrite (inbound_processed e _ s tx _ Hd Hc Hpub). }
  rewrite Hdb.
  exists (reorder (findOrder e') (db s)), (reorder (findOrder e') (db s ++ [stamp e tx])).
  repeat split.
  - rewrite reorder_perm. apply Permutation_app_tail. symmetry. apply reorder_perm.
  - intros ->. cbn [reorder fold_left]. rewrite report_app. cbn [report].
    now rewrite append_nil_r.
Qed.

(** X17: no record leaves the report: what a successful egress call
    answers after any further requests reports every record an earlier
    successful call reports, as often, and possibly more; when both
    reads return the rows in the order they were inserted, the earlier
    answer is a prefix of the later one. *)
Theorem egress_output_only_grows (rs : list Request) (s : State) (e e' : Env) :
  findErr e = None ->
  findErr e' = None ->
  exists before after more,
    body (snd (outboundHandler e s)) = report before
    /\ body (snd (outboundHandler e' (run rs s))) = report after
    /\ Permutation after (before ++ more)
    /\ (findOrder e = [] -> findOrder e' = [] ->
        body (snd (outboundHandler e' (run rs s)))
        = (body (snd (outboundHandler e s)) ++ report more)%string).
Proof.
  intros Hf Hf'. rewrite (outboundHandler_ok e s Hf), (outboundHandler_ok e' _ Hf').
  cbn [snd body]. destruct (run_db_grows rs s) as (more & ->).
  exists (reorder (findOrder e) (db s)), (reorder (findOrder e') (db s ++ more)), more.
  repeat split.
  - rewrite reorder_perm. apply Permutation_app_tail. symmetry. apply reorder_perm.
  - intros -> ->. cbn [reorder fold_left]. apply report_app.
Qed.



End MoreIngressFacts.

(* ------------------------------------------------------------------ *)
(** ** Bodies that are not objects, and the date member *)

Section BodyShapes.

Context {lib : Library}.

(** X19: at the top level only an object or null is accepted: the body
    [null] is handled like the body [{}], and a body that is an array, a
    string, a number or a boolean, or from which no JSON value can be
    read, is answered 400 with nothing created, published or logged. *)
Theorem only_objects_and_null_decode (e : Env) (s : State) :
  inboundHandler e (Value JNull) s = inboundHandler e (Value (JObject [])) s
  /\ inboundHandler e NoValue s
     = (inboundCounter_Inc s, mkResponse 400 ("Invalid JSON" ++ nl))
  /\ forall v,
       match v with
       | JNull | JObject _ => True
       | _ => inboundHandler e (Value v) s
              = (inboundCounter_Inc s, mkResponse 400 ("Invalid JSON" ++ nl))
       end.
Proof.
  split; [reflexivity | split; [reflexivity |]].
  intros v. destruct v; trivial; now apply inbound_malformed.
Qed.

(** X20: the date of the body is read although the server overwrites it:
    a member that selects the date and is neither null nor a string that
    [Time.UnmarshalJSON] accepts makes the handler answer 400 and create
    nothing. *)
Theorem unreadable_date_is_refused
        (e : Env) (ms : list (string * json)) (s : State) (k : string) (v : json) :
  In (k, v) ms ->
  lookupField k = Some FDate ->
  (refused_by_string v = true
   \/ exists d, v = JString d /\ time_UnmarshalJSON d = None) ->
  inboundHandler e (Value (JObject ms)) s
  = (inboundCounter_Inc s, mkResponse 400 ("Invalid JSON" ++ nl)).
Proof.
  intros Hin Hk Hv. apply inbound_malformed. cbn [Decode Unmarshal].
  apply (object_refuses ms k v FDate Hin Hk). intros tx.
  destruct Hv as [Hv | (d & -> & Hd)].
  - destruct v; try discriminate; reflexivity.
  - cbn [setField storeTime]. now rewrite Hd.
Qed.

End BodyShapes.

(* ------------------------------------------------------------------ *)
(** ** The further properties on the samples *)

Lemma egress_read_failure_witness :
  snd (outboundHandler unreadableEnv acmeState)
  = mkResponse 500 ("Failed to fetch transactions" ++ nl)
  /\ logged (fst (outboundHandler unreadableEnv acmeState)) = logged acmeState
  /\ printed (fst (outboundHandler unreadableEnv acmeState))
     = printed acmeState ++ findTrace unreadableEnv
  /\ forall s', snd (outboundHandler unreadableEnv s')
                = snd (outboundHandler unreadableEnv acmeState).
Proof.
  exact (egress_read_failure unreadableEnv acmeState "connection reset" eq_refl).
Defined.


Lemma confirmation_shows_the_record_witness :
  exists t,
    db (fst (inboundHandler (lib := sampleLibrary) quietEnv itemsBody emptyState))
    = db emptyState ++ [t]
    /\ body (snd (inboundHandler (lib := sampleLibrary) quietEnv itemsBody emptyState))
       = ("Inbound transaction processed: " ++ plus_v (lib := sampleLibrary) t ++ nl)%string
    /\ contains (ID t)
         (body (snd (inboundHandler (lib := sampleLibrary) quietEnv itemsBody emptyState)))
    /\ contains (ShipTo t)
         (body (snd (inboundHandler (lib := sampleLibrary) quietEnv itemsBody emptyState)))
    /\ contains (ItemList t)
         (body (snd (inboundHandler (lib := sampleLibrary) quietEnv itemsBody emptyState)))
    /\ contains "Status:Processed"
         (body (snd (inboundHandler (lib := sampleLibrary) quietEnv itemsBody emptyState))).
Proof.
  exact (confirmation_shows_the_record (lib := sampleLibrary) quietEnv itemsBody
           emptyState eq_refl).
Defined.

Lemma wrong_type_is_refused_witness :
  inboundHandler (lib := sampleLibrary) quietEnv
    (Value (JObject [("items", JString "A1"); ("Ship_To", JNumber "7")])) acmeState
  = (inboundCounter_Inc acmeState, mkResponse 400 ("Invalid JSON" ++ nl)).
Proof.
  apply (wrong_type_is_refused (lib := sampleLibrary) quietEnv
           [("items", JString "A1"); ("Ship_To", JNumber "7")] acmeState
           "Ship_To" (JNumber "7") FShipTo);
    [right; now left | reflexivity | reflexivity | reflexivity].
Defined.

Lemma unknown_member_is_ignored_witness :
  inboundHandler (lib := sampleLibrary) quietEnv acmeBody emptyState
  = inboundHandler (lib := sampleLibrary) quietEnv
      (Value (JObject [("ship_to", JString "Acme")])) emptyState.
Proof.
  exact (unknown_member_is_ignored (lib := sampleLibrary) quietEnv
           [("ship_to", JString "Acme")] [] "item_list" (JString acmeItems)
           emptyState eq_refl).
Defined.

Lemma ship_to_round_trip_witness :
  exists t,
    db (fst (inboundHandler (lib := sampleLibrary) quietEnv
               (Value (JObject ([("ship_to", JString "Old")]
                                ++ ("SHIP_TO", JString "Acme")
                                   :: [("items", JString "A1")]))) emptyState))
    = db emptyState ++ [t]
    /\ ShipTo t = "Acme"
    /\ contains "Acme" (record_line t)
    /\ contains (record_line t ++ nl ++ nl)
         (body (snd (outboundHandler quietEnv
            (run (lib := sampleLibrary)
                 [mkRequest "POST" "/inbound" emptyObject laterEnv]
                 (fst (inboundHandler (lib := sampleLibrary) quietEnv
                         (Value (JObject ([("ship_to", JString "Old")]
                                          ++ ("SHIP_TO", JString "Acme")
                                             :: [("items", JString "A1")])))
                         emptyState)))))).
Proof.
  apply (ship_to_round_trip (lib := sampleLibrary) quietEnv
           [("ship_to", JString "Old")] [("items", JString "A1")] "SHIP_TO" "Acme"
           emptyState (mkTransaction "" zeroTime "Acme" "A1" "")
           [stamp quietEnv (mkTransaction "" zeroTime "Acme" "A1" "")]
           [mkRequest "POST" "/inbound" emptyObject laterEnv] quietEnv);
    try reflexivity.
  intros k' v' [H | []]. injection H as <- <-. discriminate.
Defined.

Lemma primary_key_stays_unique_witness :
  NoDup (map ID (db (run (lib := sampleLibrary) sampleRun emptyState)))
  /\ List.length (db (run (lib := sampleLibrary) sampleRun emptyState)) = 2%nat.
Proof.
  split; [| reflexivity].
  apply (primary_key_stays_unique (lib := sampleLibrary) sampleRun emptyState).
  constructor.
Defined.

Lemma published_stay_stored_witness :
  published_are_stored sampleLibrary (run (lib := sampleLibrary) sampleRun emptyState).
Proof.
  apply (published_stay_stored (lib := sampleLibrary) sampleRun emptyState).
  intros m [].
Defined.

Lemma counters_since_start_witness :
  openErr goodBoot = None /\ migrateErr goodBoot = None
  /\ db (mkState [acmeRow] [] [] 0 0 ["Server running on port 8086"] []) = [acmeRow]
  /\ inboundCounter (run (lib := sampleLibrary) sampleRun
                         (mkState [acmeRow] [] [] 0 0 ["Server running on port 8086"] []))
     = N.of_nat (List.length (filter toInbound sampleRun))
  /\ outboundCounter (run (lib := sampleLibrary) sampleRun
                          (mkState [acmeRow] [] [] 0 0 ["Server running on port 8086"] []))
     = N.of_nat (List.length (filter toOutbound sampleRun)).
Proof.
  exact (counters_since_start (lib := sampleLibrary) goodBoot [acmeRow] []
           (mkState [acmeRow] [] [] 0 0 ["Server running on port 8086"] [])
           sampleRun eq_refl).
Defined.

Lemma egress_after_ingress_witness :
  exists before after,
    body (snd (outboundHandler shuffledEnv acmeState)) = report before
    /\ body (snd (outboundHandler shuffledEnv
               (fst (inboundHandler (lib := sampleLibrary) laterEnv itemsBody acmeState))))
       = report after
    /\ Permutation after
         (before ++ [stamp laterEnv (mkTransaction "" zeroTime "Acme" acmeItems "")])
    /\ (findOrder shuffledEnv = [] ->
        body (snd (outboundHandler shuffledEnv
                (fst (inboundHandler (lib := sampleLibrary) laterEnv itemsBody acmeState))))
        = (body (snd (outboundHandler shuffledEnv acmeState))
           ++ record_line (stamp laterEnv (mkTransaction "" zeroTime "Acme" acmeItems ""))
           ++ nl ++ nl)%string).
Proof.
  apply (egress_after_ingress (lib := sampleLibrary) laterEnv itemsBody acmeState
           (mkTransaction "" zeroTime "Acme" acmeItems "")
           (db acmeState ++ [stamp laterEnv (mkTransaction "" zeroTime "Acme" acmeItems "")])
           shuffledEnv);
    reflexivity.
Defined.

Lemma egress_output_only_grows_witness :
  exists before after more,
    body (snd (outboundHandler quietEnv acmeState)) = report before
    /\ body (snd (outboundHandler shuffledEnv
               (run (lib := sampleLibrary) sampleRun acmeState)))
       = report after
    /\ Permutation after (before ++ more)
    /\ (findOrder quietEnv = [] -> findOrder shuffledEnv = [] ->
        body (snd (outboundHandler shuffledEnv
                (run (lib := sampleLibrary) sampleRun acmeState)))
        = (body (snd (outboundHandler quietEnv acmeState)) ++ report more)%string).
Proof.
  exact (egress_output_only_grows (lib := sampleLibrary) sampleRun acmeState
           quietEnv shuffledEnv eq_refl eq_refl).
Defined.

Lemma unreadable_date_is_refused_witness :
  inboundHandler (lib := sampleLibrary) quietEnv
    (Value (JObject [("ship_to", JString "Acme"); ("date", JString "yesterday")]))
    emptyState
  = (inboundCounter_Inc emptyState, mkResponse 400 ("Invalid JSON" ++ nl)).
Proof.
  apply (unreadable_date_is_refused (lib := sampleLibrary) quietEnv
           [("ship_to", JString "Acme"); ("date", JString "yesterday")]
           emptyState "date" (JString "yesterday"));
    [right; now left | reflexivity |].
  right. exists "yesterday". split; reflexivity.
Defined.
